(** * Provider abstraction of [dev/infra.py]: a shallow embedding

    The Python module [infra.py] defines a cloud-agnostic [Provider]
    interface, two concrete providers ([HCloudProvider], [ScalewayProvider]),
    the [Infra] orchestrator and the [Server] descriptor.  The classes are
    embedded here as functions over an explicit world: a heap of provider
    objects (Python objects are shared by reference, a provider may sit
    under several names of [Infra.providers]) and the list of vendor-SDK
    resources registered so far, together with a trace of the provisioning
    methods entered.  Exceptions are values of [exn]; a raising call keeps
    the mutations done before the raise. *)

From Stdlib Require Import Ascii.
From stdpp Require Import gmap strings list fin_maps.

Open Scope string_scope.
Open Scope list_scope.
Set Warnings "-register-all".

(** ** Python values occurring in the configuration dictionaries *)

(** [provider_config] is a nest of dict, list and str literals (see
    [__main__.py]); the default argument is [None].  A dict keeps its
    entries in insertion order, keys are strings. *)
Inductive pyval : Type :=
| PNone
| PStr (s : string)
| PList (l : list pyval)
| PDict (d : list (string * pyval)).

(** ** Exceptions *)

(** The exception classes the module can raise: the explicit
    [raise Exception("Invalid server object")] and the built-in failures of
    subscripting, iteration, attribute access and argument binding. *)
Inductive exn : Type :=
| Exception (msg : string)
| KeyError (key : string)
| TypeError (msg : string)
| AttributeError (msg : string).

(** The name of the class of an exception, as [type(e).__name__]. *)
Definition exn_class (e : exn) : string :=
  match e with
  | Exception _ => "Exception"
  | KeyError _ => "KeyError"
  | TypeError _ => "TypeError"
  | AttributeError _ => "AttributeError"
  end.

Inductive result (A : Type) : Type :=
| Ok (a : A)
| Raise (e : exn).
Arguments Ok {A} a.
Arguments Raise {A} e.

(** [d[k]] for a dict literal: the entry stored under [k]. *)
Fixpoint dict_get (d : list (string * pyval)) (k : string) : option pyval :=
  match d with
  | [] => None
  | (k', v) :: d' => if String.eqb k' k then Some v else dict_get d' k
  end.

(** [v[k]] with a string key [k]. *)
Definition getitem (v : pyval) (k : string) : result pyval :=
  match v with
  | PDict d =>
      match dict_get d k with
      | Some x => Ok x
      | None => Raise (KeyError k)
      end
  | PList _ => Raise (TypeError "list indices must be integers or slices, not str")
  | PStr _ => Raise (TypeError "string indices must be integers")
  | PNone => Raise (TypeError "'NoneType' object is not subscriptable")
  end.

Fixpoint chars (s : string) : list pyval :=
  match s with
  | EmptyString => []
  | String c s' => PStr (String c EmptyString) :: chars s'
  end.

(** [for x in v]: the elements a [for] loop visits. *)
Definition iter (v : pyval) : result (list pyval) :=
  match v with
  | PList l => Ok l
  | PDict d => Ok (map (fun kv => PStr (fst kv)) d)
  | PStr s => Ok (chars s)
  | PNone => Raise (TypeError "'NoneType' object is not iterable")
  end.

(** ** Resource descriptors *)

Module Server.
(** [class Server]: [__init__(name: str, size: str, image: str,
    ip_address: str = None)]. *)
Record t : Type := mk {
  name : string;
  size : string;
  image : string;
  ip_address : option string
}.

(** [Server.deploy]: [pass]. *)
Definition deploy (self : t) : unit := tt.
End Server.

Module SecurityGroup.
(** [class SecurityGroup]: a name and an uninterpreted list of rules. *)
Record t : Type := mk {
  name : string;
  rules : list pyval
}.
End SecurityGroup.

(** ** The vendor SDK *)

(** [hcloud.ServerNetworkArgs(network_id=..., ip=...)], a plain argument
    object. *)
Record ServerNetworkArgs : Type := {
  sna_network_id : nat;
  sna_ip : option string
}.

(** One constructor per SDK resource class the module instantiates, with
    the arguments the module passes. *)
Inductive sdk_call : Type :=
| hcloud_Network (name : string) (ip_range : pyval)
| hcloud_NetworkSubnet (name : pyval) (network_id : nat) (ip_range : pyval)
    (network_zone : string) (type : string)
| hcloud_Server (name : string) (server_type : string) (image : string)
    (ssh_keys : option (list string)) (networks : list ServerNetworkArgs)
    (location : pyval)
| scaleway_InstanceIp (name : string)
| scaleway_InstanceServer (name : string) (image : string) (type : string)
    (ip_id : nat).

(** A resource object returned by the SDK.  Its [id] is the position of
    the registration in the run, which makes handles of distinct
    registrations distinct. *)
Record resource : Type := {
  res_id : nat;
  res_args : sdk_call
}.

(** ** Provider objects *)

Inductive cls : Type :=
| Provider_cls
| HCloudProvider_cls
| ScalewayProvider_cls.

#[global] Instance cls_eq_dec : EqDecision cls.
Proof. solve_decision. Defined.

(** What [self.servers] holds: [HCloudProvider] appends the SDK resource,
    [ScalewayProvider] appends the [Server] object it was given. *)
Inductive server_entry : Type :=
| Instance_entry (r : resource)
| Descriptor_entry (s : Server.t).

(** The attributes [Provider.__init__] sets.  [None] in [network] and
    [subnets] is Python's [None], the value of a method whose body is
    [pass]. *)
Record obj : Type := {
  class_of : cls;
  ssh_keys : option (list string);
  provider_config : pyval;
  sizes : gmap string string;
  images : gmap string string;
  network : option resource;
  subnets : option (list resource);
  servers : list server_entry
}.

(** The provisioning methods of the interface; their invocations are
    recorded in [calls]. *)
Inductive method : Type :=
| m_provision_private_network
| m_provision_private_subnets
| m_provision_server
| m_provision_security_group.

(** ** The world and its monad *)

Record world : Type := {
  heap : list obj;            (* provider objects, by address *)
  sdk : list sdk_call;        (* resources registered with the vendor SDK *)
  calls : list (cls * method) (* provisioning methods entered so far *)
}.

Definition M (A : Type) : Type := world -> result A * world.

Definition ret {A} (a : A) : M A := fun w => (Ok a, w).
Definition raise {A} (e : exn) : M A := fun w => (Raise e, w).
Definition bind {A B} (m : M A) (k : A -> M B) : M B :=
  fun w => match m w with
           | (Ok a, w') => k a w'
           | (Raise e, w') => (Raise e, w')
           end.
Definition lift {A} (r : result A) : M A := fun w => (r, w).

Notation "x <- c ;; k" := (bind c (fun x => k))
  (at level 100, c at next level, right associativity).
Notation "c ;;; k" := (bind c (fun _ => k))
  (at level 100, right associativity).

(** Calling an SDK resource class registers the resource and returns the
    resource object.  The SDK is an external collaborator: what the
    provisioning engine later does with a registration, and its own
    failures, are outside the module. *)
Definition sdk_new (c : sdk_call) : M resource :=
  fun w => (Ok {| res_id := length (sdk w); res_args := c |},
            {| heap := heap w; sdk := sdk w ++ [c]; calls := calls w |}).

Definition enter (c : cls) (m : method) : M unit :=
  fun w => (Ok tt, {| heap := heap w; sdk := sdk w; calls := calls w ++ [(c, m)] |}).

(** Reading the object behind a reference.  Python has no dangling
    references; an address outside the heap is reported as an error. *)
Definition deref (l : nat) : M obj :=
  fun w => match heap w !! l with
           | Some o => (Ok o, w)
           | None => (Raise (AttributeError "no such object"), w)
           end.

Definition store (l : nat) (o : obj) : M unit :=
  fun w => (Ok tt, {| heap := <[l := o]> (heap w); sdk := sdk w; calls := calls w |}).

Definition alloc (o : obj) : M nat :=
  fun w => (Ok (length (heap w)),
            {| heap := heap w ++ [o]; sdk := sdk w; calls := calls w |}).

(** [self.network.id] *)
Definition network_id (self : obj) : result nat :=
  match network self with
  | Some r => Ok (res_id r)
  | None => Raise (AttributeError "'NoneType' object has no attribute 'id'")
  end.

(** [table[k]] on a size or image table. *)
Definition table_get (t : gmap string string) (k : string) : result string :=
  match t !! k with
  | Some x => Ok x
  | None => Raise (KeyError k)
  end.

(** [self.servers.append(x)] on the object at address [l]. *)
Definition set_servers (o : obj) (xs : list server_entry) : obj :=
  {| class_of := class_of o; ssh_keys := ssh_keys o;
     provider_config := provider_config o;
     sizes := sizes o; images := images o;
     network := network o; subnets := subnets o;
     servers := xs |}.

Definition append_server (l : nat) (x : server_entry) : M unit :=
  o <- deref l ;;
  store l (set_servers o (servers o ++ [x])).

(** The methods [Provider.__init__] reaches through [self]: they are
    looked up in the class of the object under construction. *)
Record methods : Type := {
  set_sizes_of : gmap string string;
  set_images_of : gmap string string;
  provision_private_network_of : obj -> M (option resource);
  provision_private_subnets_of : obj -> M (option (list resource))
}.

(** ** [class Provider] *)

Module Provider.

Definition set_sizes : gmap string string :=
  {[ "small" := "instance_type_small";
     "medium" := "instance_type_medium";
     "large" := "instance_type_large";
     "xlarge" := "instance_type_xlarge" ]}.

Definition set_images : gmap string string :=
  {[ "ubuntu20" := "ubuntu_20_04";
     "debian11" := "debian_11";
     "rocky9" := "rocky_9" ]}.

(** [provision_private_network]: [pass]. *)
Definition provision_private_network (self : obj) : M (option resource) :=
  enter (class_of self) m_provision_private_network ;;;
  ret None.

(** [provision_private_subnets]: [pass]. *)
Definition provision_private_subnets (self : obj) : M (option (list resource)) :=
  enter (class_of self) m_provision_private_subnets ;;;
  ret None.

(** [provision_server(self, size, image)]: [pass].  The orchestrator
    calls [provision_server(server)], one argument short. *)
Definition provision_server (l : nat) (server : Server.t) : M unit :=
  raise (TypeError "provision_server() missing 1 required positional argument: 'image'").

(** [provision_security_group]: [pass]. *)
Definition provision_security_group (l : nat) (security_group : SecurityGroup.t) : M unit :=
  self <- deref l ;;
  enter (class_of self) m_provision_security_group ;;;
  ret tt.

(** [network_config_is_valid]: [return True]. *)
Definition network_config_is_valid (self : obj) (network_config : pyval) : bool := true.

(** [server_object_is_valid]:
    [server.image in self.images.keys() and server.size in self.sizes.keys()]. *)
Definition server_object_is_valid (self : obj) (server : Server.t) : bool :=
  if bool_decide (Server.image server ∈ dom (images self))
     && bool_decide (Server.size server ∈ dom (sizes self))
  then true
  else false.

(** [__init__(self, ssh_keys=None, provider_config=None)].  The
    attributes are set in the order of the source; a method that raises
    aborts the construction. *)
Definition __init__ (mt : methods) (c : cls)
    (ssh_keys : option (list string)) (provider_config : pyval) : M obj :=
  let self0 :=
    {| class_of := c; ssh_keys := ssh_keys; provider_config := provider_config;
       sizes := set_sizes_of mt; images := set_images_of mt;
       network := None; subnets := None; servers := [] |} in
  net <- provision_private_network_of mt self0 ;;
  let self1 :=
    {| class_of := c; ssh_keys := ssh_keys; provider_config := provider_config;
       sizes := set_sizes_of mt; images := set_images_of mt;
       network := net; subnets := None; servers := [] |} in
  subs <- provision_private_subnets_of mt self1 ;;
  ret {| class_of := c; ssh_keys := ssh_keys; provider_config := provider_config;
         sizes := set_sizes_of mt; images := set_images_of mt;
         network := net; subnets := subs; servers := [] |}.

End Provider.

(** ** [class HCloudProvider(Provider)] *)

Module HCloudProvider.

Definition set_images : gmap string string :=
  {[ "ubuntu22" := "ubuntu-20.04";
     "debian11" := "debian-11";
     "rocky9" := "rocky-9";
     "centos7" := "centos-7" ]}.

Definition set_sizes : gmap string string :=
  {[ "small" := "cx11";
     "medium" := "cx21";
     "large" := "cx31";
     "xlarge" := "cx41" ]}.

Definition provision_private_network (self : obj) : M (option resource) :=
  enter (class_of self) m_provision_private_network ;;;
  network_config <- lift (getitem (provider_config self) "network_config") ;;
  ip_range <- lift (getitem network_config "private_ip_range") ;;
  r <- sdk_new (hcloud_Network "network" ip_range) ;;
  ret (Some r).

(** The body of the [for] loop, over the subnets still to visit; [acc]
    is the list [ret] built so far. *)
Fixpoint subnets_loop (self : obj) (todo : list pyval) (acc : list resource)
    : M (list resource) :=
  match todo with
  | [] => ret acc
  | subnet :: todo' =>
      name <- lift (getitem subnet "name") ;;
      nid <- lift (network_id self) ;;
      ip_range <- lift (getitem subnet "subnet_ip_range") ;;
      r <- sdk_new (hcloud_NetworkSubnet name nid ip_range "eu-central" "cloud") ;;
      subnets_loop self todo' (acc ++ [r])
  end.

Definition provision_private_subnets (self : obj) : M (option (list resource)) :=
  enter (class_of self) m_provision_private_subnets ;;;
  network_config <- lift (getitem (provider_config self) "network_config") ;;
  subnets <- lift (getitem network_config "subnets") ;;
  todo <- lift (iter subnets) ;;
  r <- subnets_loop self todo [] ;;
  ret (Some r).

Definition provision_server (l : nat) (server : Server.t) : M unit :=
  self <- deref l ;;
  enter (class_of self) m_provision_server ;;;
  if Provider.server_object_is_valid self server then
    server_type <- lift (table_get (sizes self) (Server.size server)) ;;
    image <- lift (table_get (images self) (Server.image server)) ;;
    nid <- lift (network_id self) ;;
    location <- lift (getitem (provider_config self) "location") ;;
    server_instance <-
      sdk_new (hcloud_Server (Server.name server) server_type image
                 (ssh_keys self)
                 [ {| sna_network_id := nid; sna_ip := Server.ip_address server |} ]
                 location) ;;
    append_server l (Instance_entry server_instance)
  else
    raise (Exception "Invalid server object").

Definition mt : methods :=
  {| set_sizes_of := set_sizes; set_images_of := set_images;
     provision_private_network_of := provision_private_network;
     provision_private_subnets_of := provision_private_subnets |}.

End HCloudProvider.

(** ** [class ScalewayProvider(Provider)] *)

Module ScalewayProvider.

Definition set_images : gmap string string :=
  {[ "ubuntu22" := "ubuntu_jammy";
     "debian11" := "debian_bullseye";
     "rocky9" := "rockylinux_9";
     "centos7" := "centos_7.9" ]}.

Definition set_sizes : gmap string string :=
  {[ "small" := "DEV1-S";
     "medium" := "DEV1-M";
     "large" := "DEV1-L";
     "xlarge" := "DEV1-XL" ]}.

Definition provision_server (l : nat) (server : Server.t) : M unit :=
  self <- deref l ;;
  enter (class_of self) m_provision_server ;;;
  if Provider.server_object_is_valid self server then
    ip <- sdk_new (scaleway_InstanceIp ("public_ip_" +:+ Server.name server)) ;;
    image <- lift (table_get (images self) (Server.image server)) ;;
    type <- lift (table_get (sizes self) (Server.size server)) ;;
    server_instance <-
      sdk_new (scaleway_InstanceServer (Server.name server) image type (res_id ip)) ;;
    append_server l (Descriptor_entry server)
  else
    raise (Exception "Invalid server object").

(** Network and subnet provisioning are inherited from [Provider]. *)
Definition mt : methods :=
  {| set_sizes_of := set_sizes; set_images_of := set_images;
     provision_private_network_of := Provider.provision_private_network;
     provision_private_subnets_of := Provider.provision_private_subnets |}.

End ScalewayProvider.

(** ** Method resolution and object creation *)

Definition base_mt : methods :=
  {| set_sizes_of := Provider.set_sizes; set_images_of := Provider.set_images;
     provision_private_network_of := Provider.provision_private_network;
     provision_private_subnets_of := Provider.provision_private_subnets |}.

Definition methods_of (c : cls) : methods :=
  match c with
  | Provider_cls => base_mt
  | HCloudProvider_cls => HCloudProvider.mt
  | ScalewayProvider_cls => ScalewayProvider.mt
  end.

(** [c(ssh_keys, provider_config)]: run [__init__], then the new object
    has an address. *)
Definition new (c : cls) (ssh_keys : option (list string)) (provider_config : pyval)
    : M nat :=
  o <- Provider.__init__ (methods_of c) c ssh_keys provider_config ;;
  alloc o.

(** [p.provision_server(server)] for the object at address [l]: the method
    of the object's class. *)
Definition provision_server (l : nat) (server : Server.t) : M unit :=
  self <- deref l ;;
  match class_of self with
  | Provider_cls => Provider.provision_server l server
  | HCloudProvider_cls => HCloudProvider.provision_server l server
  | ScalewayProvider_cls => ScalewayProvider.provision_server l server
  end.

(** ** [class Infra] *)

Module Infra.

(** [self.providers]: provider name to provider object (an address). *)
Record t : Type := mk {
  providers : gmap string nat
}.

Definition __init__ (providers : gmap string nat) : t := mk providers.

(** [self.providers[provider_name].provision_server(server)] *)
Definition provision_server (self : t) (server : Server.t) (provider_name : string)
    : M unit :=
  match providers self !! provider_name with
  | None => raise (KeyError provider_name)
  | Some l => provision_server l server
  end.

(** [deploy]: [pass]. *)
Definition deploy (self : t) : M unit := ret tt.

End Infra.

(** ** The program of [dev/__main__.py] *)

Module Main.

Definition SSH_KEYS : option (list string) := Some ["daniel@Daniels-MBP"].

Definition HETZNER_LOCATION : string := "fsn1".

Definition xardas : Server.t :=
  Server.mk "xardas" "small" "rocky9" (Some "172.21.0.10").

Definition hetzner_config : pyval :=
  PDict [ ("network_config",
           PDict [ ("private_ip_range", PStr "172.21.0.0/16");
                   ("subnets",
                    PList [ PDict [ ("subnet_ip_range", PStr "172.21.0.0/24");
                                    ("name", PStr "subnet1") ] ]) ]);
          ("location", PStr HETZNER_LOCATION) ].

Definition scaleway_config : pyval :=
  PDict [ ("network_config",
           PDict [ ("private_ip_range", PStr "172.22.0.0/16") ]) ].

(** The interpreter starts with no provider object and nothing
    registered. *)
Definition world0 : world := {| heap := []; sdk := []; calls := [] |}.

(** The two constructor calls and the [Infra] built from them. *)
Definition setup : M Infra.t :=
  hetzner_provider <- new HCloudProvider_cls SSH_KEYS hetzner_config ;;
  scaleway_provider <- new ScalewayProvider_cls SSH_KEYS scaleway_config ;;
  ret (Infra.__init__ {[ "hetzner" := hetzner_provider;
                         "scaleway" := scaleway_provider ]}).

Definition main : M unit :=
  infra <- setup ;;
  Infra.provision_server infra xardas "hetzner".

End Main.

(** ** Operations of a run *)

(** The calls a client of the module can make on the objects of a world. *)
Inductive op : Type :=
| Op_new (c : cls) (ssh_keys : option (list string)) (provider_config : pyval)
| Op_set_sizes (l : nat)
| Op_set_images (l : nat)
| Op_provision_private_network (l : nat)
| Op_provision_private_subnets (l : nat)
| Op_provision_server (l : nat) (server : Server.t)
| Op_provision_security_group (l : nat) (g : SecurityGroup.t)
| Op_network_config_is_valid (l : nat) (network_config : pyval)
| Op_server_object_is_valid (l : nat) (server : Server.t)
| Op_Infra_provision_server (i : Infra.t) (server : Server.t) (provider_name : string)
| Op_Infra_deploy (i : Infra.t)
| Op_Server_deploy (server : Server.t).

Definition set_tables (o : obj) (sz im : gmap string string) : obj :=
  {| class_of := class_of o; ssh_keys := ssh_keys o;
     provider_config := provider_config o;
     sizes := sz; images := im;
     network := network o; subnets := subnets o;
     servers := servers o |}.

(** The world after a call; the value or exception of the call is dropped. *)
Definition exec (o : op) (w : world) : world :=
  match o with
  | Op_new c k cfg => snd (new c k cfg w)
  | Op_set_sizes l =>
      snd ((self <- deref l ;;
            store l (set_tables self (set_sizes_of (methods_of (class_of self)))
                                     (images self))) w)
  | Op_set_images l =>
      snd ((self <- deref l ;;
            store l (set_tables self (sizes self)
                                     (set_images_of (methods_of (class_of self))))) w)
  | Op_provision_private_network l =>
      snd ((self <- deref l ;;
            provision_private_network_of (methods_of (class_of self)) self) w)
  | Op_provision_private_subnets l =>
      snd ((self <- deref l ;;
            provision_private_subnets_of (methods_of (class_of self)) self) w)
  | Op_provision_server l s => snd (provision_server l s w)
  | Op_provision_security_group l g => snd (Provider.provision_security_group l g w)
  | Op_network_config_is_valid l cfg =>
      snd ((self <- deref l ;; ret (Provider.network_config_is_valid self cfg)) w)
  | Op_server_object_is_valid l s =>
      snd ((self <- deref l ;; ret (Provider.server_object_is_valid self s)) w)
  | Op_Infra_provision_server i s n => snd (Infra.provision_server i s n w)
  | Op_Infra_deploy i => snd (Infra.deploy i w)
  | Op_Server_deploy s => let _ := Server.deploy s in w
  end.

Definition run (ops : list op) (w : world) : world := fold_left (fun w o => exec o w) ops w.

(** ** Notions the specification uses and the source does not define *)

(** Modelled from the spec: the source has no CIDR check and no notion of a
    valid CIDR; the specification speaks of [private_ip_range] being
    a valid CIDR.  Taken here as dotted-quad IPv4 with a prefix length:
    four decimal numbers up to 255, a slash, a decimal number up to 32. *)
Definition is_digit (c : ascii) : bool :=
  (48 <=? nat_of_ascii c)%nat && (nat_of_ascii c <=? 57)%nat.

Fixpoint split_on (sep : ascii) (s : string) : list string :=
  match s with
  | EmptyString => [EmptyString]
  | String c s' =>
      if Ascii.eqb c sep then EmptyString :: split_on sep s'
      else match split_on sep s' with
           | [] => [String c EmptyString]
           | x :: xs => String c x :: xs
           end
  end.

Fixpoint decimal_from (acc : nat) (s : string) : option nat :=
  match s with
  | EmptyString => Some acc
  | String c s' =>
      if is_digit c then decimal_from (10 * acc + (nat_of_ascii c - 48)) s'
      else None
  end.

Definition number_upto (bound : nat) (s : string) : bool :=
  match s with
  | EmptyString => false
  | _ => match decimal_from 0 s with
         | Some n => (n <=? bound)%nat
         | None => false
         end
  end.

Definition valid_cidr (s : string) : bool :=
  match split_on "/"%char s with
  | [addr; len] =>
      match split_on "."%char addr with
      | [a; b; c; d] =>
          number_upto 255 a && number_upto 255 b && number_upto 255 c
          && number_upto 255 d && number_upto 32 len
      | _ => false
      end
  | _ => false
  end.

Definition valid_cidr_value (v : pyval) : bool :=
  match v with
  | PStr s => valid_cidr s
  | _ => false
  end.

(** Modelled from the spec: the capability flag [SupportsSubnets] is not in
    the source.  The specification has a provider without native
    subnetting report false; the docstring of [network_config_is_valid]
    says that Hetzner supports subnets, that Scaleway does not, and that
    subnets are assumed supported by default. *)
Definition SupportsSubnets (c : cls) : bool :=
  match c with
  | Provider_cls => true
  | HCloudProvider_cls => true
  | ScalewayProvider_cls => false
  end.

(** The name and range of a well-formed subnet entry of [network_config]. *)
Definition subnet_fields (v : pyval) : option (pyval * pyval) :=
  match getitem v "name", getitem v "subnet_ip_range" with
  | Ok n, Ok r => Some (n, r)
  | _, _ => None
  end.

(** ** Predicates on computations and heaps *)

(** A computation that leaves a component of the world (the heap, the
    registrations, the method trace) as it found it. *)
Definition keeps {A X} (proj : world -> X) (m : M A) : Prop :=
  forall w, proj (snd (m w)) = proj w.

(** Every object of [h] is still in [h'], at its address, with its class,
    and its server list has only been extended at the end. *)
Definition grows (h h' : list obj) : Prop :=
  forall (l : nat) (p : obj),
    h !! l = Some p ->
    exists p' extra,
      h' !! l = Some p'
      /\ class_of p' = class_of p
      /\ servers p' = servers p ++ extra.

(** [p'] is [p] with one more server at the end of its list. *)
Definition one_more_server (p p' : obj) : Prop :=
  (exists x, servers p' = servers p ++ [x])
  /\ class_of p' = class_of p
  /\ sizes p' = sizes p
  /\ images p' = images p
  /\ network p' = network p
  /\ subnets p' = subnets p
  /\ ssh_keys p' = ssh_keys p
  /\ provider_config p' = provider_config p.

(** ** Subnet entries *)

(** An entry of [subnets] that has both keys the loop reads. *)
Definition is_subnet (v : pyval) : bool :=
  match subnet_fields v with
  | Some _ => true
  | None => false
  end.

(** The resource the loop of [provision_private_subnets] creates for an
    entry with name [n] and range [r], registered as number [i], in the
    network with id [nid]. *)
Definition subnet_handle (nid i : nat) (n r : pyval) : resource :=
  {| res_id := i;
     res_args := hcloud_NetworkSubnet n nid r "eu-central" "cloud" |}.

(** ** Registrations of [provision_server] *)

(** The resource [HCloudProvider.provision_server] registers. *)
Definition hcloud_server_call (p : obj) (s : Server.t) (ty im : string)
    (net : resource) (loc : pyval) : sdk_call :=
  hcloud_Server (Server.name s) ty im (ssh_keys p)
    [ {| sna_network_id := res_id net; sna_ip := Server.ip_address s |} ] loc.

(** The two resources [ScalewayProvider.provision_server] registers. *)
Definition scaleway_server_calls (w : world) (s : Server.t) (ty im : string)
    : list sdk_call :=
  [ scaleway_InstanceIp ("public_ip_" +:+ Server.name s);
    scaleway_InstanceServer (Server.name s) im ty (length (sdk w)) ].

(** ** Example objects and worlds *)

Module Examples.

(** The world and the orchestrator once [__main__.py] has built its two
    providers: the Hetzner provider at address 0, the Scaleway provider
    at address 1. *)
Definition world1 : world := snd (Main.setup Main.world0).

Definition infra : Infra.t :=
  Infra.__init__ {[ "hetzner" := 0; "scaleway" := 1 ]}.

(** The Hetzner provider of [world1]. *)
Definition hetzner_provider : obj :=
  {| class_of := HCloudProvider_cls; ssh_keys := Main.SSH_KEYS;
     provider_config := Main.hetzner_config;
     sizes := HCloudProvider.set_sizes; images := HCloudProvider.set_images;
     network :=
       Some {| res_id := 0;
               res_args := hcloud_Network "network" (PStr "172.21.0.0/16") |};
     subnets :=
       Some [ {| res_id := 1;
                 res_args := hcloud_NetworkSubnet (PStr "subnet1") 0
                               (PStr "172.21.0.0/24") "eu-central" "cloud" |} ];
     servers := [] |}.

(** The Scaleway provider of [world1]. *)
Definition scaleway_provider : obj :=
  {| class_of := ScalewayProvider_cls; ssh_keys := Main.SSH_KEYS;
     provider_config := Main.scaleway_config;
     sizes := ScalewayProvider.set_sizes; images := ScalewayProvider.set_images;
     network := None; subnets := None; servers := [] |}.

(** An object of class [c] with configuration [cfg], before its network
    and subnets are provisioned. *)
Definition unbuilt (c : cls) (cfg : pyval) : obj :=
  {| class_of := c; ssh_keys := Main.SSH_KEYS; provider_config := cfg;
     sizes := set_sizes_of (methods_of c); images := set_images_of (methods_of c);
     network := None; subnets := None; servers := [] |}.

(** A server no table knows. *)
Definition tiny : Server.t := Server.mk "x" "tiny" "fedora" None.

(** Two servers that differ from [Main.xardas] in name and address only. *)
Definition gomez : Server.t :=
  Server.mk "gomez" "small" "rocky9" (Some "not an address").

(** The Hetzner configuration with a range that is no CIDR. *)
Definition bad_range_config : pyval :=
  PDict [ ("network_config",
           PDict [ ("private_ip_range", PStr "not-a-cidr");
                   ("subnets", PList []) ]);
          ("location", PStr "fsn1") ].

(** The Hetzner configuration without its location. *)
Definition no_location_config : pyval :=
  PDict [ ("network_config",
           PDict [ ("private_ip_range", PStr "172.21.0.0/16");
                   ("subnets", PList []) ]) ].

End Examples.

(** ** Handles and registrations *)

(** The handle [h] denotes a registration of the list [s]: the entry at
    position [res_id h] has the arguments recorded in [h]. *)
Definition registered (s : list sdk_call) (h : resource) : Prop :=
  s !! res_id h = Some (res_args h).

(** The object [HCloudProvider.__init__] leaves: the tables of the class,
    the network handle [net], the subnet handles [hs], no server. *)
Definition hcloud_built (k : option (list string)) (cfg : pyval)
    (net : resource) (hs : list resource) : obj :=
  {| class_of := HCloudProvider_cls; ssh_keys := k; provider_config := cfg;
     sizes := HCloudProvider.set_sizes; images := HCloudProvider.set_images;
     network := Some net; subnets := Some hs; servers := [] |}.

(** The object the constructor of a class without network code leaves. *)
Definition plain_built (c : cls) (k : option (list string)) (cfg : pyval) : obj :=
  {| class_of := c; ssh_keys := k; provider_config := cfg;
     sizes := set_sizes_of (methods_of c); images := set_images_of (methods_of c);
     network := None; subnets := None; servers := [] |}.

(** ** Further example inputs *)

Module More.

(** A network configuration whose second subnet has no range. *)
Definition second_subnet_broken : pyval :=
  PDict [ ("network_config",
           PDict [ ("private_ip_range", PStr "10.0.0.0/8");
                   ("subnets",
                    PList [ PDict [ ("subnet_ip_range", PStr "10.1.0.0/16");
                                    ("name", PStr "first") ];
                            PDict [ ("name", PStr "second") ];
                            PDict [ ("subnet_ip_range", PStr "10.3.0.0/16");
                                    ("name", PStr "third") ] ]) ]);
          ("location", PStr "fsn1") ].

(** An [HCloudProvider] under construction with that configuration,
    after its network has been registered first. *)
Definition broken_self : obj :=
  {| class_of := HCloudProvider_cls; ssh_keys := None;
     provider_config := second_subnet_broken;
     sizes := HCloudProvider.set_sizes; images := HCloudProvider.set_images;
     network := Some {| res_id := 0;
                        res_args := hcloud_Network "network" (PStr "10.0.0.0/8") |};
     subnets := None; servers := [] |}.

Definition after_network : world :=
  {| heap := []; sdk := [hcloud_Network "network" (PStr "10.0.0.0/8")];
     calls := [(HCloudProvider_cls, m_provision_private_network)] |}.

(** Three servers every concrete provider accepts. *)
Definition diego : Server.t := Server.mk "diego" "large" "debian11" None.
Definition milten : Server.t := Server.mk "milten" "medium" "centos7" (Some "172.21.0.12").

(** An orchestrator that knows the Scaleway provider of [Examples.world1]
    under two names, and a base provider under a third. *)
Definition aliased : Infra.t :=
  Infra.__init__ {[ "scaleway" := 1; "scw" := 1; "hetzner" := 0; "base" := 2 ]}.

(** [Examples.world1] with a third provider, of the base class. *)
Definition world2 : world :=
  snd (new Provider_cls None PNone Examples.world1).

End More.

(** ** Components that only grow *)

(** A computation that only adds at the end of a list component of the
    world (the registrations, the method trace). *)
Definition extends {A X} (proj : world -> list X) (m : M A) : Prop :=
  forall w, proj w `prefix_of` proj (snd (m w)).

(** ** Well-formed provider objects *)

(** A subnet resource of the network with id [nid]. *)
Definition in_network (nid : nat) (h : resource) : Prop :=
  exists n r, res_args h = hcloud_NetworkSubnet n nid r "eu-central" "cloud".

(** An entry of a server list that is a registered [hcloud.Server]
    attached to the network with id [nid], and to no other. *)
Definition server_in_network (s : list sdk_call) (nid : nat) (e : server_entry)
    : Prop :=
  exists h nm ty im k ip loc,
    e = Instance_entry h
    /\ registered s h
    /\ res_args h
       = hcloud_Server nm ty im k [ {| sna_network_id := nid; sna_ip := ip |} ] loc.

Definition is_descriptor (e : server_entry) : Prop :=
  exists d, e = Descriptor_entry d.

(** What the operations of the module keep true of a provider object,
    given the registrations [s] made so far. *)
Definition wf_obj (s : list sdk_call) (o : obj) : Prop :=
  sizes o = set_sizes_of (methods_of (class_of o))
  /\ images o = set_images_of (methods_of (class_of o))
  /\ match class_of o with
     | HCloudProvider_cls =>
         exists net hs,
           network o = Some net
           /\ registered s net
           /\ (exists r, res_args net = hcloud_Network "network" r)
           /\ subnets o = Some hs
           /\ Forall (fun h => registered s h /\ in_network (res_id net) h) hs
           /\ Forall (server_in_network s (res_id net)) (servers o)
     | ScalewayProvider_cls =>
         network o = None /\ subnets o = None
         /\ Forall is_descriptor (servers o)
     | Provider_cls =>
         network o = None /\ subnets o = None /\ servers o = []
     end.

Definition wf (w : world) : Prop :=
  forall (l : nat) (o : obj), heap w !! l = Some o -> wf_obj (sdk w) o.

(** ** A sample run *)

Module Demo.

(** The two constructor calls of [__main__.py], a base provider, two
    servers on the Hetzner provider, one on the Scaleway provider, and
    some calls that fail. *)
Definition ops : list op :=
  [ Op_new HCloudProvider_cls Main.SSH_KEYS Main.hetzner_config;
    Op_new ScalewayProvider_cls Main.SSH_KEYS Main.scaleway_config;
    Op_new Provider_cls None PNone;
    Op_provision_server 0 Main.xardas;
    Op_provision_server 0 Examples.tiny;
    Op_provision_server 1 More.diego;
    Op_provision_server 2 Main.xardas;
    Op_new HCloudProvider_cls None Main.scaleway_config;
    Op_set_sizes 0;
    Op_provision_server 0 More.milten ].

Definition net : resource :=
  {| res_id := 0; res_args := hcloud_Network "network" (PStr "172.21.0.0/16") |}.

Definition subnet1 : resource :=
  {| res_id := 1;
     res_args := hcloud_NetworkSubnet (PStr "subnet1") 0 (PStr "172.21.0.0/24")
                   "eu-central" "cloud" |}.

(** The Hetzner provider at the end of the run. *)
Definition hetzner : obj :=
  {| class_of := HCloudProvider_cls; ssh_keys := Main.SSH_KEYS;
     provider_config := Main.hetzner_config;
     sizes := HCloudProvider.set_sizes; images := HCloudProvider.set_images;
     network := Some net;
     subnets := Some [subnet1];
     servers :=
       [ Instance_entry
           {| res_id := 2;
              res_args :=
                hcloud_Server "xardas" "cx11" "rocky-9" Main.SSH_KEYS
                  [ {| sna_network_id := 0; sna_ip := Some "172.21.0.10" |} ]
                  (PStr "fsn1") |};
         Instance_entry
           {| res_id := 6;
              res_args :=
                hcloud_Server "milten" "cx21" "centos-7" Main.SSH_KEYS
                  [ {| sna_network_id := 0; sna_ip := Some "172.21.0.12" |} ]
                  (PStr "fsn1") |} ] |}.

(** The Scaleway provider at the end of the run. *)
Definition scaleway : obj :=
  {| class_of := ScalewayProvider_cls; ssh_keys := Main.SSH_KEYS;
     provider_config := Main.scaleway_config;
     sizes := ScalewayProvider.set_sizes; images := ScalewayProvider.set_images;
     network := None; subnets := None;
     servers := [Descriptor_entry More.diego] |}.

(** The base provider at the end of the run. *)
Definition base : obj := plain_built Provider_cls None PNone.

End Demo.

(** ** Requests in sequence *)

(** A request to the orchestrator: a server and a provider name. *)
Definition request_ok (i : Infra.t) (l : nat) (p : obj) (r : Server.t * string)
    : bool :=
  bool_decide (Infra.providers i !! snd r = Some l)
  && Provider.server_object_is_valid p (fst r).


(** ** A configuration with one subnet that is not in a list *)

Module Unwrapped.

Definition config : pyval :=
  PDict [ ("network_config",
           PDict [ ("private_ip_range", PStr "10.0.0.0/8");
                   ("subnets",
                    PDict [ ("subnet_ip_range", PStr "10.1.0.0/16");
                            ("name", PStr "only") ]) ]);
          ("location", PStr "fsn1") ].

Definition self : obj :=
  {| class_of := HCloudProvider_cls; ssh_keys := None;
     provider_config := config;
     sizes := HCloudProvider.set_sizes; images := HCloudProvider.set_images;
     network := Some {| res_id := 0;
                        res_args := hcloud_Network "network" (PStr "10.0.0.0/8") |};
     subnets := None; servers := [] |}.

End Unwrapped.

(** * Properties *)

(** ** Validation *)

Lemma valid_lookup (p : obj) (s : Server.t) :
  Provider.server_object_is_valid p s = true ->
  exists ty im,
    sizes p !! Server.size s = Some ty /\ images p !! Server.image s = Some im.
Proof.
  unfold Provider.server_object_is_valid.
  destruct (bool_decide (Server.image s ∈ dom (images p))) eqn:Hi;
    destruct (bool_decide (Server.size s ∈ dom (sizes p))) eqn:Hs;
    simpl; try discriminate.
  intros _.
  apply bool_decide_eq_true_1, elem_of_dom in Hi; destruct Hi as [im Him].
  apply bool_decide_eq_true_1, elem_of_dom in Hs; destruct Hs as [ty Hty].
  eauto.
Qed.

(** C1: [server_object_is_valid] answers true exactly when the size of the
    server is a key of the provider's size table and its image is a key of
    the provider's image table. *)
Theorem server_object_is_valid_iff (p : obj) (s : Server.t) :
  Provider.server_object_is_valid p s = true
  <-> Server.size s ∈ dom (sizes p) /\ Server.image s ∈ dom (images p).
Proof.
  unfold Provider.server_object_is_valid.
  destruct (bool_decide (Server.image s ∈ dom (images p))) eqn:Hi;
    destruct (bool_decide (Server.size s ∈ dom (sizes p))) eqn:Hs; simpl.
  - apply bool_decide_eq_true_1 in Hi, Hs. tauto.
  - apply bool_decide_eq_false_1 in Hs. split; [discriminate | tauto].
  - apply bool_decide_eq_false_1 in Hi. split; [discriminate | tauto].
  - apply bool_decide_eq_false_1 in Hi. split; [discriminate | tauto].
Qed.

(** C9: the answer of [server_object_is_valid] is a function of the size
    and the image of the server alone: two servers that agree on both get
    the same answer from the same provider, whatever their names and IP
    addresses. *)
Theorem server_object_is_valid_size_image_only (p : obj) (s1 s2 : Server.t) :
  Server.size s1 = Server.size s2 ->
  Server.image s1 = Server.image s2 ->
  Provider.server_object_is_valid p s1 = Provider.server_object_is_valid p s2.
Proof.
  intros Hs Hi. unfold Provider.server_object_is_valid. by rewrite Hs, Hi.
Qed.

Lemma server_object_is_valid_size_image_only_witness :
  Provider.server_object_is_valid Examples.hetzner_provider Main.xardas
  = Provider.server_object_is_valid Examples.hetzner_provider
      Examples.gomez.
Proof.
  apply (server_object_is_valid_size_image_only
           Examples.hetzner_provider Main.xardas
           Examples.gomez);
    reflexivity.
Defined.

(** ** The steps of the monad *)

Ltac step_monad :=
  unfold append_server;
  unfold bind, ret, raise, lift, deref, enter, store, sdk_new, alloc; simpl.

Lemma world1_heap :
  heap Examples.world1 = [Examples.hetzner_provider; Examples.scaleway_provider].
Proof. reflexivity. Qed.

(** What [provision_server] does with a server that fails validation, on
    a provider of either concrete class. *)
Lemma provision_server_invalid (l : nat) (w : world) (p : obj) (s : Server.t) :
  heap w !! l = Some p ->
  class_of p <> Provider_cls ->
  Provider.server_object_is_valid p s = false ->
  provision_server l s w
  = (Raise (Exception "Invalid server object"),
     {| heap := heap w; sdk := sdk w;
        calls := calls w ++ [(class_of p, m_provision_server)] |}).
Proof.
  intros Hl Hc Hv. unfold provision_server. step_monad. rewrite Hl.
  destruct (class_of p) eqn:Hcls; [congruence | |].
  - unfold HCloudProvider.provision_server. step_monad.
    rewrite Hl, Hv, Hcls. reflexivity.
  - unfold ScalewayProvider.provision_server. step_monad.
    rewrite Hl, Hv, Hcls. reflexivity.
Qed.

(** [Provider.provision_server] takes [size] and [image]; called with a
    server alone it fails before its body. *)
Lemma provision_server_base (l : nat) (w : world) (p : obj) (s : Server.t) :
  heap w !! l = Some p ->
  class_of p = Provider_cls ->
  exists msg, provision_server l s w = (Raise (TypeError msg), w).
Proof.
  intros Hl Hc. unfold provision_server. step_monad. rewrite Hl, Hc.
  unfold Provider.provision_server. step_monad. eauto.
Qed.

(** C3: when [server_object_is_valid] answers false, [provision_server]
    raises, registers nothing with the vendor SDK, and leaves every
    provider object of the heap, the server list of the provider among
    them, as it was. *)
Theorem provision_server_invalid_atomic (l : nat) (w : world) (p : obj) (s : Server.t) :
  heap w !! l = Some p ->
  Provider.server_object_is_valid p s = false ->
  (exists e, fst (provision_server l s w) = Raise e)
  /\ sdk (snd (provision_server l s w)) = sdk w
  /\ heap (snd (provision_server l s w)) = heap w.
Proof.
  intros Hl Hv.
  destruct (decide (class_of p = Provider_cls)) as [Hc | Hc].
  - destruct (provision_server_base l w p s Hl Hc) as [msg ->]. simpl. eauto.
  - rewrite (provision_server_invalid l w p s Hl Hc Hv). simpl. eauto.
Qed.

Lemma provision_server_invalid_atomic_witness :
  (exists e, fst (provision_server 0 Examples.tiny Examples.world1) = Raise e)
  /\ sdk (snd (provision_server 0 Examples.tiny Examples.world1)) = sdk Examples.world1
  /\ heap (snd (provision_server 0 Examples.tiny Examples.world1)) = heap Examples.world1.
Proof.
  apply (provision_server_invalid_atomic 0 Examples.world1
           Examples.hetzner_provider Examples.tiny); reflexivity.
Defined.

(** ** [provision_server] on a valid server *)

Lemma hcloud_provision_server_valid
    (l : nat) (w : world) (p : obj) (s : Server.t)
    (ty im : string) (net : resource) (loc : pyval) :
  heap w !! l = Some p ->
  class_of p = HCloudProvider_cls ->
  Provider.server_object_is_valid p s = true ->
  sizes p !! Server.size s = Some ty ->
  images p !! Server.image s = Some im ->
  network p = Some net ->
  getitem (provider_config p) "location" = Ok loc ->
  provision_server l s w
  = (Ok tt,
     {| heap :=
          <[l := set_servers p
                   (servers p ++
                      [Instance_entry
                         {| res_id := length (sdk w);
                            res_args := hcloud_server_call p s ty im net loc |}])]>
            (heap w);
        sdk := sdk w ++ [hcloud_server_call p s ty im net loc];
        calls := calls w ++ [(HCloudProvider_cls, m_provision_server)] |}).
Proof.
  intros Hl Hc Hv Hty Him Hnet Hloc.
  unfold provision_server. step_monad. rewrite Hl, Hc.
  unfold HCloudProvider.provision_server. step_monad.
  rewrite Hl, Hv, Hc. unfold table_get, network_id.
  rewrite Hty, Him, Hnet, Hloc. simpl. rewrite Hl. reflexivity.
Qed.

Lemma hcloud_provision_server_no_location
    (l : nat) (w : world) (p : obj) (s : Server.t) (net : resource) (e : exn) :
  heap w !! l = Some p ->
  class_of p = HCloudProvider_cls ->
  Provider.server_object_is_valid p s = true ->
  network p = Some net ->
  getitem (provider_config p) "location" = Raise e ->
  provision_server l s w
  = (Raise e,
     {| heap := heap w; sdk := sdk w;
        calls := calls w ++ [(HCloudProvider_cls, m_provision_server)] |}).
Proof.
  intros Hl Hc Hv Hnet Hloc.
  destruct (valid_lookup p s Hv) as (ty & im & Hty & Him).
  unfold provision_server. step_monad. rewrite Hl, Hc.
  unfold HCloudProvider.provision_server. step_monad.
  rewrite Hl, Hv, Hc. unfold table_get, network_id.
  rewrite Hty, Him, Hnet, Hloc. reflexivity.
Qed.

Lemma scaleway_provision_server_valid
    (l : nat) (w : world) (p : obj) (s : Server.t) (ty im : string) :
  heap w !! l = Some p ->
  class_of p = ScalewayProvider_cls ->
  Provider.server_object_is_valid p s = true ->
  sizes p !! Server.size s = Some ty ->
  images p !! Server.image s = Some im ->
  provision_server l s w
  = (Ok tt,
     {| heap := <[l := set_servers p (servers p ++ [Descriptor_entry s])]> (heap w);
        sdk := sdk w ++ scaleway_server_calls w s ty im;
        calls := calls w ++ [(ScalewayProvider_cls, m_provision_server)] |}).
Proof.
  intros Hl Hc Hv Hty Him.
  unfold provision_server. step_monad. rewrite Hl, Hc.
  unfold ScalewayProvider.provision_server. step_monad.
  rewrite Hl, Hv, Hc. unfold table_get.
  rewrite Hty, Him. simpl. rewrite Hl.
  unfold scaleway_server_calls. rewrite <- app_assoc. reflexivity.
Qed.

(** ** Errors of [provision_server] *)

(** C2, as the code has it: on a server that fails validation,
    [provision_server] of either concrete provider raises the plain
    [Exception("Invalid server object")]; on a valid server
    [ScalewayProvider.provision_server] raises nothing, and
    [HCloudProvider.provision_server] raises nothing when the provider has
    its network and [provider_config] has a [location] entry, and raises
    the error of the [location] lookup otherwise. *)
Theorem provision_server_raises (l : nat) (w : world) (p : obj) (s : Server.t) :
  heap w !! l = Some p ->
  class_of p <> Provider_cls ->
  (Provider.server_object_is_valid p s = false ->
   fst (provision_server l s w) = Raise (Exception "Invalid server object"))
  /\ (Provider.server_object_is_valid p s = true ->
      class_of p = ScalewayProvider_cls ->
      fst (provision_server l s w) = Ok tt)
  /\ (Provider.server_object_is_valid p s = true ->
      class_of p = HCloudProvider_cls ->
      forall net, network p = Some net ->
      (forall loc, getitem (provider_config p) "location" = Ok loc ->
                   fst (provision_server l s w) = Ok tt)
      /\ (forall e, getitem (provider_config p) "location" = Raise e ->
                    fst (provision_server l s w) = Raise e)).
Proof.
  intros Hl Hc. split; [| split].
  - intros Hv. by rewrite (provision_server_invalid l w p s Hl Hc Hv).
  - intros Hv Hs. destruct (valid_lookup p s Hv) as (ty & im & Hty & Him).
    by rewrite (scaleway_provision_server_valid l w p s ty im).
  - intros Hv Hh net Hnet. split.
    + intros loc Hloc. destruct (valid_lookup p s Hv) as (ty & im & Hty & Him).
      by rewrite (hcloud_provision_server_valid l w p s ty im net loc).
    + intros e Hloc.
      by rewrite (hcloud_provision_server_no_location l w p s net e).
Qed.

Lemma provision_server_raises_witness :
  fst (provision_server 0 Examples.tiny Examples.world1)
  = Raise (Exception "Invalid server object")
  /\ fst (provision_server 1 Main.xardas Examples.world1) = Ok tt
  /\ fst (provision_server 0 Main.xardas Examples.world1) = Ok tt.
Proof.
  split; [| split].
  - apply (provision_server_raises 0 Examples.world1 Examples.hetzner_provider
             Examples.tiny); [reflexivity | discriminate | reflexivity].
  - apply (provision_server_raises 1 Examples.world1 Examples.scaleway_provider
             Main.xardas); [reflexivity | discriminate | reflexivity | reflexivity].
  - eapply (provision_server_raises 0 Examples.world1 Examples.hetzner_provider
              Main.xardas); [reflexivity | discriminate | reflexivity .. ].
Defined.

(** C2 fails as stated: the exception raised for the unknown size [tiny]
    and image [fedora] is not of class [InvalidResourceError]. *)
Lemma provision_server_invalid_not_InvalidResourceError :
  Provider.server_object_is_valid Examples.hetzner_provider Examples.tiny = false
  /\ ~ (exists e, fst (provision_server 0 Examples.tiny Examples.world1) = Raise e
                  /\ exn_class e = "InvalidResourceError").
Proof.
  split; [reflexivity |].
  intros (e & He & Hcls).
  change (fst (provision_server 0 Examples.tiny Examples.world1))
    with (@Raise unit (Exception "Invalid server object")) in He.
  injection He as <-. discriminate Hcls.
Qed.

(** ** The orchestrator *)

(** C4, as the code has it: for a provider name that is no key of
    [Infra.providers], [Infra.provision_server] raises [KeyError] with
    that name and changes nothing: no provider object, no SDK
    registration, no method entered. *)
Theorem Infra_provision_server_unknown
    (i : Infra.t) (s : Server.t) (provider_name : string) (w : world) :
  Infra.providers i !! provider_name = None ->
  Infra.provision_server i s provider_name w = (Raise (KeyError provider_name), w).
Proof.
  intros Hn. unfold Infra.provision_server. rewrite Hn. reflexivity.
Qed.

Lemma Infra_provision_server_unknown_witness :
  Infra.provision_server Examples.infra Main.xardas "nonexistent" Examples.world1
  = (Raise (KeyError "nonexistent"), Examples.world1).
Proof.
  apply (Infra_provision_server_unknown Examples.infra Main.xardas "nonexistent"
           Examples.world1).
  reflexivity.
Defined.

(** C4 fails as stated: the exception for the unregistered name is not of
    class [UnknownProviderError]. *)
Lemma Infra_provision_server_not_UnknownProviderError :
  Infra.providers Examples.infra !! "nonexistent" = None
  /\ ~ (exists e,
          fst (Infra.provision_server Examples.infra Main.xardas "nonexistent"
                 Examples.world1) = Raise e
          /\ exn_class e = "UnknownProviderError").
Proof.
  split; [reflexivity |].
  intros (e & He & Hcls).
  change (fst (Infra.provision_server Examples.infra Main.xardas "nonexistent"
                 Examples.world1))
    with (@Raise unit (KeyError "nonexistent")) in He.
  injection He as <-. discriminate Hcls.
Qed.

(** ** What a successful [provision_server] does *)

(** C5, as the code has it: on a server that validates, [provision_server]
    translates size and image through the tables of the provider.  An
    [HCloudProvider] with its network and a [location] entry registers one
    [hcloud.Server] with the translated size and image, attached to the
    network of the provider with the [ip_address] of the server ([None]
    when not given), and appends that resource to its server list.  A
    [ScalewayProvider] registers a public IP and an instance with the
    translated size and image and the id of that IP; the instance has no
    network attachment and the [ip_address] of the server is not used. *)
Theorem provision_server_valid_effect (l : nat) (w : world) (p : obj) (s : Server.t) :
  heap w !! l = Some p ->
  Provider.server_object_is_valid p s = true ->
  exists ty im : string,
    sizes p !! Server.size s = Some ty
    /\ images p !! Server.image s = Some im
    /\ (class_of p = HCloudProvider_cls ->
        forall net loc,
          network p = Some net ->
          getitem (provider_config p) "location" = Ok loc ->
          sdk (snd (provision_server l s w))
          = (sdk w ++ [hcloud_server_call p s ty im net loc])%list
          /\ heap (snd (provision_server l s w))
             = <[l := set_servers p
                        (servers p ++
                           [Instance_entry
                              {| res_id := length (sdk w);
                                 res_args := hcloud_server_call p s ty im net loc |}])]>
                 (heap w))
    /\ (class_of p = ScalewayProvider_cls ->
        sdk (snd (provision_server l s w))
        = (sdk w ++ [ scaleway_InstanceIp ("public_ip_" +:+ Server.name s);
                      scaleway_InstanceServer (Server.name s) im ty (length (sdk w)) ])%list).
Proof.
  intros Hl Hv. destruct (valid_lookup p s Hv) as (ty & im & Hty & Him).
  exists ty, im. split; [exact Hty | split; [exact Him | split]].
  - intros Hc net loc Hnet Hloc.
    by rewrite (hcloud_provision_server_valid l w p s ty im net loc).
  - intros Hc. by rewrite (scaleway_provision_server_valid l w p s ty im).
Qed.

Lemma provision_server_valid_effect_witness :
  exists ty im : string,
    sizes Examples.hetzner_provider !! "small" = Some ty
    /\ images Examples.hetzner_provider !! "rocky9" = Some im
    /\ (class_of Examples.hetzner_provider = HCloudProvider_cls ->
        forall net loc,
          network Examples.hetzner_provider = Some net ->
          getitem Main.hetzner_config "location" = Ok loc ->
          sdk (snd (provision_server 0 Main.xardas Examples.world1))
          = (sdk Examples.world1
             ++ [hcloud_server_call Examples.hetzner_provider Main.xardas ty im net loc])%list
          /\ heap (snd (provision_server 0 Main.xardas Examples.world1))
             = <[0 := set_servers Examples.hetzner_provider
                        (servers Examples.hetzner_provider ++
                           [Instance_entry
                              {| res_id := length (sdk Examples.world1);
                                 res_args :=
                                   hcloud_server_call Examples.hetzner_provider
                                     Main.xardas ty im net loc |}])]>
                 (heap Examples.world1))
    /\ (class_of Examples.hetzner_provider = ScalewayProvider_cls ->
        sdk (snd (provision_server 0 Main.xardas Examples.world1))
        = (sdk Examples.world1
           ++ [ scaleway_InstanceIp ("public_ip_" +:+ "xardas");
                scaleway_InstanceServer "xardas" im ty (length (sdk Examples.world1)) ])%list).
Proof.
  apply (provision_server_valid_effect 0 Examples.world1 Examples.hetzner_provider
           Main.xardas); reflexivity.
Defined.

(** C5 fails as stated: the Scaleway provider of [__main__.py] has no
    network; for the valid server [xardas], given with an IP address, it
    registers a public IP and an instance that refers to no network and
    carries no address, and its server list ends with the server
    descriptor, not with a resource of the SDK. *)
Lemma scaleway_provision_server_appends_descriptor :
  Provider.server_object_is_valid Examples.scaleway_provider Main.xardas = true
  /\ Server.ip_address Main.xardas = Some "172.21.0.10"
  /\ network Examples.scaleway_provider = None
  /\ sdk (snd (provision_server 1 Main.xardas Examples.world1))
     = sdk Examples.world1
       ++ [ scaleway_InstanceIp "public_ip_xardas";
            scaleway_InstanceServer "xardas" "rockylinux_9" "DEV1-S" 2 ]
  /\ servers <$> (heap (snd (provision_server 1 Main.xardas Examples.world1)) !! 1)
     = Some [Descriptor_entry Main.xardas]
  /\ ~ (exists r,
          servers <$> (heap (snd (provision_server 1 Main.xardas Examples.world1)) !! 1)
          = Some [Instance_entry r]).
Proof.
  do 5 (split; [reflexivity |]).
  intros (r & Hr).
  change (servers <$> (heap (snd (provision_server 1 Main.xardas Examples.world1)) !! 1))
    with (Some [Descriptor_entry Main.xardas]) in Hr.
  discriminate Hr.
Qed.

(** ** The server list only grows *)

Lemma provision_server_heap (l : nat) (s : Server.t) (w : world) :
  (exists e, fst (provision_server l s w) = Raise e
             /\ heap (snd (provision_server l s w)) = heap w)
  \/ (exists p x, heap w !! l = Some p
                  /\ fst (provision_server l s w) = Ok tt
                  /\ heap (snd (provision_server l s w))
                     = <[l := set_servers p (servers p ++ [x])]> (heap w)).
Proof.
  destruct (heap w !! l) as [p |] eqn:Hl.
  2:{ left. unfold provision_server. step_monad. rewrite Hl. simpl. eauto. }
  destruct (class_of p) eqn:Hc.
  - left. destruct (provision_server_base l w p s Hl Hc) as [msg ->]. simpl. eauto.
  - destruct (Provider.server_object_is_valid p s) eqn:Hv.
    + destruct (valid_lookup p s Hv) as (ty & im & Hty & Him).
      destruct (network p) as [net |] eqn:Hnet.
      * destruct (getitem (provider_config p) "location") as [loc | e] eqn:Hloc.
        -- right. eexists p, _. split; [reflexivity |].
           rewrite (hcloud_provision_server_valid l w p s ty im net loc) by done.
           simpl. split; reflexivity.
        -- left. rewrite (hcloud_provision_server_no_location l w p s net e) by done.
           simpl. eauto.
      * left. unfold provision_server. step_monad. rewrite Hl, Hc.
        unfold HCloudProvider.provision_server. step_monad.
        rewrite Hl, Hv, Hc. unfold table_get, network_id.
        rewrite Hty, Him, Hnet. simpl. eauto.
    + left. rewrite (provision_server_invalid l w p s Hl) by (done || congruence).
      simpl. eauto.
  - destruct (Provider.server_object_is_valid p s) eqn:Hv.
    + destruct (valid_lookup p s Hv) as (ty & im & Hty & Him).
      right. eexists p, _. split; [reflexivity |].
      rewrite (scaleway_provision_server_valid l w p s ty im) by done.
      simpl. split; reflexivity.
    + left. rewrite (provision_server_invalid l w p s Hl) by (done || congruence).
      simpl. eauto.
Qed.

Section Keeps.
Context {X : Type} (proj : world -> X).

Lemma keeps_bind {A B} (m : M A) (k : A -> M B) :
  keeps proj m -> (forall a, keeps proj (k a)) -> keeps proj (bind m k).
Proof.
  intros Hm Hk w. unfold bind. specialize (Hm w).
  destruct (m w) as [[a | e] w']; simpl in *.
  - rewrite Hk. exact Hm.
  - exact Hm.
Qed.

Lemma keeps_ret {A} (a : A) : keeps proj (ret a).
Proof. intros w. reflexivity. Qed.

Lemma keeps_raise {A} (e : exn) : keeps proj (@raise A e).
Proof. intros w. reflexivity. Qed.

Lemma keeps_lift {A} (r : result A) : keeps proj (lift r).
Proof. intros w. reflexivity. Qed.

Lemma keeps_deref (l : nat) : keeps proj (deref l).
Proof. intros w. unfold deref. destruct (heap w !! l); reflexivity. Qed.
End Keeps.

Lemma keeps_heap_enter (c : cls) (m : method) : keeps heap (enter c m).
Proof. intros w. reflexivity. Qed.

Lemma keeps_sdk_enter (c : cls) (m : method) : keeps sdk (enter c m).
Proof. intros w. reflexivity. Qed.

Lemma keeps_heap_sdk_new (c : sdk_call) : keeps heap (sdk_new c).
Proof. intros w. reflexivity. Qed.

Lemma keeps_calls_sdk_new (c : sdk_call) : keeps calls (sdk_new c).
Proof. intros w. reflexivity. Qed.

Create HintDb keeps discriminated.
#[local] Hint Resolve keeps_ret keeps_raise keeps_lift keeps_deref
  keeps_heap_enter keeps_sdk_enter keeps_heap_sdk_new keeps_calls_sdk_new : keeps.

Ltac solve_keeps :=
  repeat match goal with
         | |- keeps _ (bind _ _) => apply keeps_bind; [| intros ?]
         end;
  eauto with keeps.

Lemma keeps_heap_subnets_loop (self : obj) (todo : list pyval) :
  forall acc, keeps heap (HCloudProvider.subnets_loop self todo acc).
Proof.
  induction todo as [| subnet todo IH]; intros acc; simpl; solve_keeps.
Qed.

Lemma keeps_calls_subnets_loop (self : obj) (todo : list pyval) :
  forall acc, keeps calls (HCloudProvider.subnets_loop self todo acc).
Proof.
  induction todo as [| subnet todo IH]; intros acc; simpl; solve_keeps.
Qed.

#[local] Hint Resolve keeps_heap_subnets_loop keeps_calls_subnets_loop : keeps.

Lemma keeps_heap_network (c : cls) (self : obj) :
  keeps heap (provision_private_network_of (methods_of c) self).
Proof.
  destruct c; simpl;
    unfold Provider.provision_private_network,
      HCloudProvider.provision_private_network; solve_keeps.
Qed.

Lemma keeps_heap_subnets (c : cls) (self : obj) :
  keeps heap (provision_private_subnets_of (methods_of c) self).
Proof.
  destruct c; simpl;
    unfold Provider.provision_private_subnets,
      HCloudProvider.provision_private_subnets; solve_keeps.
Qed.

#[local] Hint Resolve keeps_heap_network keeps_heap_subnets : keeps.

Lemma keeps_heap_init (c : cls) (k : option (list string)) (cfg : pyval) :
  keeps heap (Provider.__init__ (methods_of c) c k cfg).
Proof.
  unfold Provider.__init__. solve_keeps.
Qed.

Lemma new_heap (c : cls) (k : option (list string)) (cfg : pyval) (w : world) :
  heap (snd (new c k cfg w)) = heap w
  \/ exists o, heap (snd (new c k cfg w)) = heap w ++ [o].
Proof.
  unfold new, bind. pose proof (keeps_heap_init c k cfg w) as H.
  destruct (Provider.__init__ (methods_of c) c k cfg w) as [[o | e] w'];
    simpl in *.
  - right. exists o. by rewrite H.
  - by left.
Qed.

Lemma grows_refl (h : list obj) : grows h h.
Proof.
  intros l p Hl. exists p, []. by rewrite app_nil_r.
Qed.

Lemma grows_trans (h1 h2 h3 : list obj) : grows h1 h2 -> grows h2 h3 -> grows h1 h3.
Proof.
  intros H12 H23 l p Hl.
  destruct (H12 l p Hl) as (p2 & e2 & Hl2 & Hc2 & Hs2).
  destruct (H23 l p2 Hl2) as (p3 & e3 & Hl3 & Hc3 & Hs3).
  exists p3, (e2 ++ e3). split; [exact Hl3 | split; [congruence |]].
  by rewrite Hs3, Hs2, app_assoc.
Qed.

Lemma grows_alloc (h : list obj) (o : obj) : grows h (h ++ [o]).
Proof.
  intros l p Hl. exists p, []. rewrite app_nil_r.
  split; [by apply lookup_app_l_Some | done].
Qed.

(** Replacing an object by one of the same class whose server list
    extends the old one. *)
Lemma grows_insert (h : list obj) (l : nat) (p p' : obj) (extra : list server_entry) :
  h !! l = Some p ->
  class_of p' = class_of p ->
  servers p' = servers p ++ extra ->
  grows h (<[l := p']> h).
Proof.
  intros Hl Hc Hs l0 p0 Hl0.
  destruct (decide (l0 = l)) as [-> | Hne].
  - assert (p0 = p) as -> by congruence.
    exists p', extra. split; [| done].
    apply list_lookup_insert_eq. by eapply lookup_lt_Some.
  - exists p0, []. rewrite app_nil_r. split; [| done].
    by rewrite list_lookup_insert_ne.
Qed.

Lemma store_heap (l : nat) (o : obj) (w : world) :
  heap (snd (store l o w)) = <[l := o]> (heap w).
Proof. reflexivity. Qed.

(** A method that reads [self] and then replaces no object. *)
Lemma deref_then_keeps {A} (l : nat) (k : obj -> M A) (w : world) :
  (forall o, keeps heap (k o)) ->
  heap (snd ((self <- deref l ;; k self) w)) = heap w.
Proof.
  intros Hk. apply (keeps_bind heap (deref l) k); [apply keeps_deref | exact Hk].
Qed.

(** A method that reads [self] and stores an updated [self]. *)
Lemma deref_then_store (l : nat) (f : obj -> obj) (w : world) :
  (forall o, class_of (f o) = class_of o /\ servers (f o) = servers o) ->
  grows (heap w) (heap (snd ((self <- deref l ;; store l (f self)) w))).
Proof.
  intros Hf. unfold bind, deref.
  destruct (heap w !! l) as [p |] eqn:Hl; simpl.
  - destruct (Hf p) as [Hc Hs].
    apply (grows_insert (heap w) l p (f p) []); [done | done |].
    by rewrite app_nil_r.
  - apply grows_refl.
Qed.

Lemma provision_server_grows (l : nat) (s : Server.t) (w : world) :
  grows (heap w) (heap (snd (provision_server l s w))).
Proof.
  destruct (provision_server_heap l s w) as [(e & _ & ->) | (p & x & Hl & _ & ->)].
  - apply grows_refl.
  - by apply (grows_insert (heap w) l p _ [x]).
Qed.

Lemma exec_grows (o : op) (w : world) : grows (heap w) (heap (exec o w)).
Proof.
  destruct o; simpl.
  - destruct (new_heap c ssh_keys0 provider_config0 w) as [-> | [o ->]].
    + apply grows_refl.
    + apply grows_alloc.
  - by apply (deref_then_store l
                (fun self => set_tables self
                               (set_sizes_of (methods_of (class_of self)))
                               (images self))).
  - by apply (deref_then_store l
                (fun self => set_tables self (sizes self)
                               (set_images_of (methods_of (class_of self))))).
  - rewrite deref_then_keeps; [apply grows_refl | intros o; apply keeps_heap_network].
  - rewrite deref_then_keeps; [apply grows_refl | intros o; apply keeps_heap_subnets].
  - apply provision_server_grows.
  - unfold Provider.provision_security_group.
    rewrite deref_then_keeps; [apply grows_refl | intros o; solve_keeps].
  - rewrite deref_then_keeps; [apply grows_refl | intros o; solve_keeps].
  - rewrite deref_then_keeps; [apply grows_refl | intros o; solve_keeps].
  - unfold Infra.provision_server.
    destruct (Infra.providers i !! provider_name) as [l |].
    + apply provision_server_grows.
    + apply grows_refl.
  - apply grows_refl.
  - apply grows_refl.
Qed.

Lemma run_grows (ops : list op) : forall w, grows (heap w) (heap (run ops w)).
Proof.
  induction ops as [| o ops IH]; intros w; simpl.
  - apply grows_refl.
  - eapply grows_trans; [apply exec_grows | apply IH].
Qed.

(** C10: a successful [provision_server] replaces the provider object by
    one whose server list has exactly one more element at the end and
    whose other attributes ([sizes], [images], [network], [subnets],
    [ssh_keys], [provider_config]) are the same, and touches no other
    object; and over any sequence of operations every provider keeps its
    address and its server list is only extended. *)
Theorem servers_only_grow :
  (forall (l : nat) (s : Server.t) (w : world) (p : obj),
      heap w !! l = Some p ->
      fst (provision_server l s w) = Ok tt ->
      exists p',
        heap (snd (provision_server l s w)) = <[l := p']> (heap w)
        /\ one_more_server p p')
  /\ (forall (ops : list op) (w : world) (l : nat) (p : obj),
         heap w !! l = Some p ->
         exists p' extra,
           heap (run ops w) !! l = Some p'
           /\ servers p' = servers p ++ extra).
Proof.
  split.
  - intros l s w p Hl Hok.
    destruct (provision_server_heap l s w) as [(e & He & _) | (p0 & x & Hl0 & _ & Hh)].
    + congruence.
    + assert (p0 = p) as -> by congruence.
      eexists. split; [exact Hh |].
      unfold one_more_server, set_servers; simpl. eauto 10.
  - intros ops w l p Hl.
    destruct (run_grows ops w l p Hl) as (p' & extra & Hl' & _ & Hs). eauto.
Qed.

Lemma servers_only_grow_witness :
  (exists p',
      heap (snd (provision_server 1 Main.xardas Examples.world1))
      = <[1 := p']> (heap Examples.world1)
      /\ one_more_server Examples.scaleway_provider p')
  /\ (exists p' extra,
         heap (run [ Op_provision_server 0 Main.xardas;
                     Op_Infra_provision_server Examples.infra Examples.tiny "hetzner";
                     Op_new Provider_cls None PNone;
                     Op_provision_server 0 Examples.gomez ]
                 Examples.world1) !! 0 = Some p'
         /\ servers p' = servers Examples.hetzner_provider ++ extra).
Proof.
  split.
  - apply (proj1 servers_only_grow 1 Main.xardas Examples.world1
             Examples.scaleway_provider); reflexivity.
  - apply (proj2 servers_only_grow
             [ Op_provision_server 0 Main.xardas;
               Op_Infra_provision_server Examples.infra Examples.tiny "hetzner";
               Op_new Provider_cls None PNone;
               Op_provision_server 0 Examples.gomez ]
             Examples.world1 0 Examples.hetzner_provider).
    reflexivity.
Defined.

(** ** Subnets *)

Lemma is_subnet_fields (v : pyval) :
  is_subnet v = true ->
  exists n r, subnet_fields v = Some (n, r)
              /\ getitem v "name" = Ok n
              /\ getitem v "subnet_ip_range" = Ok r.
Proof.
  unfold is_subnet, subnet_fields.
  destruct (getitem v "name") as [n | e]; [| discriminate].
  destruct (getitem v "subnet_ip_range") as [r | e]; [| discriminate].
  intros _. eauto.
Qed.

(** The loop on well-formed entries: it runs to the end, the handles come
    in the order of the entries, after those already accumulated. *)
Lemma subnets_loop_ok (self : obj) (net : resource) (todo : list pyval) :
  network self = Some net ->
  forallb is_subnet todo = true ->
  forall (acc : list resource) (w : world),
  exists hs,
    HCloudProvider.subnets_loop self todo acc w
    = (Ok (acc ++ hs),
       {| heap := heap w; sdk := sdk w ++ map res_args hs; calls := calls w |})
    /\ length hs = length todo
    /\ (forall i v, todo !! i = Some v ->
          exists n r, subnet_fields v = Some (n, r)
                      /\ hs !! i = Some (subnet_handle (res_id net)
                                           (length (sdk w) + i) n r)).
Proof.
  intros Hnet. induction todo as [| v todo IH]; intros Hall acc w.
  - exists []. simpl. rewrite !app_nil_r. split; [| split].
    + unfold ret. by destruct w.
    + reflexivity.
    + intros i v Hi. by rewrite lookup_nil in Hi.
  - simpl in Hall. apply andb_true_iff in Hall as [Hv Hall].
    destruct (is_subnet_fields v Hv) as (n & r & Hf & Hn & Hr).
    specialize (IH Hall (acc ++ [subnet_handle (res_id net) (length (sdk w)) n r])
                  {| heap := heap w;
                     sdk := sdk w ++ [hcloud_NetworkSubnet n (res_id net) r
                                        "eu-central" "cloud"];
                     calls := calls w |}).
    destruct IH as (hs & Hrun & Hlen & Hnth).
    exists (subnet_handle (res_id net) (length (sdk w)) n r :: hs).
    split; [| split].
    + simpl. step_monad. unfold network_id. rewrite Hn, Hnet, Hr. simpl.
      unfold subnet_handle in Hrun at 1. rewrite Hrun. simpl.
      by rewrite <- !app_assoc.
    + simpl. by rewrite Hlen.
    + intros [| i] u Hi; simpl in Hi.
      * injection Hi as <-. exists n, r. split; [exact Hf |].
        simpl. by rewrite Nat.add_0_r.
      * destruct (Hnth i u Hi) as (n2 & r2 & Hf2 & Hh).
        exists n2, r2. split; [exact Hf2 |]. simpl in *.
        rewrite Hh. rewrite length_app. simpl.
        do 2 f_equal. lia.
Qed.

(** C6: for a network configuration whose [subnets] list has [n]
    entries, each with a name and a range, [provision_private_subnets] of
    [HCloudProvider] returns a list of exactly [n] handles, the [i]-th one
    created from the [i]-th entry, and registers them in that order. *)
Theorem provision_private_subnets_one_per_subnet
    (self : obj) (w : world) (net : resource) (nc : pyval) (l : list pyval) :
  getitem (provider_config self) "network_config" = Ok nc ->
  getitem nc "subnets" = Ok (PList l) ->
  network self = Some net ->
  forallb is_subnet l = true ->
  exists hs,
    fst (HCloudProvider.provision_private_subnets self w) = Ok (Some hs)
    /\ length hs = length l
    /\ (forall i v, l !! i = Some v ->
          exists n r, subnet_fields v = Some (n, r)
                      /\ hs !! i = Some (subnet_handle (res_id net)
                                           (length (sdk w) + i) n r))
    /\ sdk (snd (HCloudProvider.provision_private_subnets self w))
       = sdk w ++ map res_args hs.
Proof.
  intros Hnc Hsub Hnet Hall.
  destruct (subnets_loop_ok self net l Hnet Hall []
              {| heap := heap w; sdk := sdk w;
                 calls := calls w ++ [(class_of self, m_provision_private_subnets)] |})
    as (hs & Hrun & Hlen & Hnth).
  exists hs. unfold HCloudProvider.provision_private_subnets. step_monad.
  rewrite Hnc, Hsub. simpl. rewrite Hrun. simpl. auto.
Qed.

Lemma provision_private_subnets_one_per_subnet_witness :
  exists hs,
    fst (HCloudProvider.provision_private_subnets Examples.hetzner_provider
           Examples.world1) = Ok (Some hs)
    /\ length hs = 1
    /\ (forall i v,
          [ PDict [ ("subnet_ip_range", PStr "172.21.0.0/24");
                    ("name", PStr "subnet1") ] ] !! i = Some v ->
          exists n r, subnet_fields v = Some (n, r)
                      /\ hs !! i = Some (subnet_handle 0 (2 + i) n r))
    /\ sdk (snd (HCloudProvider.provision_private_subnets Examples.hetzner_provider
                   Examples.world1))
       = sdk Examples.world1 ++ map res_args hs.
Proof.
  apply (provision_private_subnets_one_per_subnet Examples.hetzner_provider
           Examples.world1
           {| res_id := 0;
              res_args := hcloud_Network "network" (PStr "172.21.0.0/16") |}
           (PDict [ ("private_ip_range", PStr "172.21.0.0/16");
                    ("subnets",
                     PList [ PDict [ ("subnet_ip_range", PStr "172.21.0.0/24");
                                     ("name", PStr "subnet1") ] ]) ])
           [ PDict [ ("subnet_ip_range", PStr "172.21.0.0/24");
                     ("name", PStr "subnet1") ] ]);
    reflexivity.
Defined.

(** ** Network provisioning *)

(** The exceptions of subscripting are [KeyError] and [TypeError]. *)
Lemma getitem_exn (v : pyval) (k : string) (e : exn) :
  getitem v k = Raise e -> exn_class e = "KeyError" \/ exn_class e = "TypeError".
Proof.
  destruct v as [| s | l | d]; simpl.
  - intros [= <-]. by right.
  - intros [= <-]. by right.
  - intros [= <-]. by right.
  - destruct (dict_get d k); [discriminate |]. intros [= <-]. by left.
Qed.

Lemma provision_private_network_exn (c : cls) (self : obj) (w : world) (e : exn) :
  fst (provision_private_network_of (methods_of c) self w) = Raise e ->
  exn_class e = "KeyError" \/ exn_class e = "TypeError".
Proof.
  destruct c; simpl; try discriminate.
  unfold HCloudProvider.provision_private_network. step_monad.
  destruct (getitem (provider_config self) "network_config") as [nc | e1] eqn:Hnc;
    simpl.
  - destruct (getitem nc "private_ip_range") as [r | e2] eqn:Hr; simpl.
    + discriminate.
    + intros [= <-]. by eapply getitem_exn.
  - intros [= <-]. by eapply getitem_exn.
Qed.

(** C7, as the code has it: network provisioning does not look into
    [private_ip_range].  [HCloudProvider.provision_private_network] hands
    whatever is stored under [network_config] / [private_ip_range] to
    [hcloud.Network] and returns the resource; the
    [provision_private_network] inherited from [Provider] (the one of
    [ScalewayProvider]) registers nothing and returns [None]; and for no
    configuration and no class does the method raise
    [ConfigurationError]. *)
Theorem provision_private_network_unchecked
    (self : obj) (w : world) (nc r : pyval) :
  getitem (provider_config self) "network_config" = Ok nc ->
  getitem nc "private_ip_range" = Ok r ->
  (fst (HCloudProvider.provision_private_network self w)
   = Ok (Some {| res_id := length (sdk w);
                 res_args := hcloud_Network "network" r |})
   /\ sdk (snd (HCloudProvider.provision_private_network self w))
      = sdk w ++ [hcloud_Network "network" r])
  /\ (fst (Provider.provision_private_network self w) = Ok None
      /\ sdk (snd (Provider.provision_private_network self w)) = sdk w)
  /\ (forall (c : cls) (o : obj) (w0 : world) (e : exn),
        fst (provision_private_network_of (methods_of c) o w0) = Raise e ->
        exn_class e <> "ConfigurationError").
Proof.
  intros Hnc Hr. split; [| split].
  - unfold HCloudProvider.provision_private_network. step_monad.
    rewrite Hnc. simpl. rewrite Hr. simpl. done.
  - done.
  - intros c o w0 e He.
    destruct (provision_private_network_exn c o w0 e He) as [-> | ->]; discriminate.
Qed.

Lemma provision_private_network_unchecked_witness :
  fst (HCloudProvider.provision_private_network
         (Examples.unbuilt HCloudProvider_cls Examples.bad_range_config) Main.world0)
  = Ok (Some {| res_id := 0;
                res_args := hcloud_Network "network" (PStr "not-a-cidr") |}).
Proof.
  apply (provision_private_network_unchecked
           (Examples.unbuilt HCloudProvider_cls Examples.bad_range_config)
           Main.world0
           (PDict [ ("private_ip_range", PStr "not-a-cidr");
                    ("subnets", PList []) ])
           (PStr "not-a-cidr"));
    reflexivity.
Defined.

(** C7 fails as stated: with the range [not-a-cidr], which is no CIDR,
    the construction of an [HCloudProvider] returns the new object and
    raises nothing. *)
Lemma bad_range_no_ConfigurationError :
  (exists nc, getitem Examples.bad_range_config "network_config" = Ok nc
              /\ getitem nc "private_ip_range" = Ok (PStr "not-a-cidr"))
  /\ valid_cidr_value (PStr "not-a-cidr") = false
  /\ fst (new HCloudProvider_cls Main.SSH_KEYS Examples.bad_range_config Main.world0)
     = Ok 0
  /\ ~ (exists e,
          fst (new HCloudProvider_cls Main.SSH_KEYS Examples.bad_range_config
                 Main.world0) = Raise e
          /\ exn_class e = "ConfigurationError").
Proof.
  split; [eexists; split; reflexivity |].
  split; [reflexivity |]. split; [reflexivity |].
  intros (e & He & _).
  change (fst (new HCloudProvider_cls Main.SSH_KEYS Examples.bad_range_config
                 Main.world0)) with (@Ok nat 0) in He.
  discriminate He.
Qed.

(** ** Subnet provisioning at construction *)

Lemma enter_then {A} (c : cls) (m : method) (k : M A) (w : world) :
  keeps calls k ->
  calls (snd ((enter c m ;;; k) w)) = calls w ++ [(c, m)].
Proof.
  intros Hk. unfold bind, enter. simpl.
  specialize (Hk {| heap := heap w; sdk := sdk w; calls := calls w ++ [(c, m)] |}).
  destruct (k _) as [[a | e] w']; exact Hk.
Qed.

Lemma provision_private_network_calls (c : cls) (self : obj) (w : world) :
  calls (snd (provision_private_network_of (methods_of c) self w))
  = calls w ++ [(class_of self, m_provision_private_network)].
Proof.
  destruct c; try reflexivity.
  unfold methods_of, HCloudProvider.mt, provision_private_network_of,
    HCloudProvider.provision_private_network.
  apply enter_then; solve_keeps.
Qed.

Lemma provision_private_subnets_calls (c : cls) (self : obj) (w : world) :
  calls (snd (provision_private_subnets_of (methods_of c) self w))
  = calls w ++ [(class_of self, m_provision_private_subnets)].
Proof.
  destruct c; try reflexivity.
  unfold methods_of, HCloudProvider.mt, provision_private_subnets_of,
    HCloudProvider.provision_private_subnets.
  apply enter_then; solve_keeps.
Qed.

(** C8, as the code has it: [Provider.__init__] has no capability flag to
    consult.  Every construction that returns has entered
    [provision_private_network] and then [provision_private_subnets] of
    the class of the new object, whatever the class; for a class that
    inherits the method from [Provider] (as [ScalewayProvider] does) the
    construction always returns, the call registers nothing, and the
    [subnets] attribute is [None], whatever [subnets] the configuration
    lists. *)
Theorem init_enters_provision_private_subnets
    (c : cls) (k : option (list string)) (cfg : pyval) (w w' : world) (o : obj) :
  Provider.__init__ (methods_of c) c k cfg w = (Ok o, w') ->
  calls w' = calls w ++ [ (c, m_provision_private_network);
                          (c, m_provision_private_subnets) ]
  /\ (c <> HCloudProvider_cls ->
      subnets o = None /\ sdk w' = sdk w /\ heap w' = heap w)
  /\ (forall (c0 : cls) (k0 : option (list string)) (cfg0 : pyval) (w0 : world),
        c0 <> HCloudProvider_cls ->
        exists o0, fst (Provider.__init__ (methods_of c0) c0 k0 cfg0 w0) = Ok o0).
Proof.
  intros Hinit. split; [| split].
  - unfold Provider.__init__, bind in Hinit.
    match type of Hinit with
    | context [provision_private_network_of (methods_of c) ?s w] =>
        pose proof (provision_private_network_calls c s w) as Hn;
        destruct (provision_private_network_of (methods_of c) s w)
          as [[net | e] w1]; [| discriminate]
    end.
    match type of Hinit with
    | context [provision_private_subnets_of (methods_of c) ?s w1] =>
        pose proof (provision_private_subnets_calls c s w1) as Hs;
        destruct (provision_private_subnets_of (methods_of c) s w1)
          as [[subs | e] w2]; [| discriminate]
    end.
    unfold ret in Hinit. injection Hinit as <- <-.
    simpl in *. rewrite Hs, Hn. by rewrite <- app_assoc.
  - intros Hc. destruct c; [| congruence |];
      unfold Provider.__init__ in Hinit; simpl in Hinit;
      unfold Provider.provision_private_network,
        Provider.provision_private_subnets in Hinit;
      step_monad; simpl in Hinit; injection Hinit as <- <-; done.
  - intros c0 k0 cfg0 w0 Hc. destruct c0; [| congruence |]; eexists; reflexivity.
Qed.

Lemma init_enters_provision_private_subnets_witness :
  calls (snd (Provider.__init__ (methods_of ScalewayProvider_cls)
                ScalewayProvider_cls Main.SSH_KEYS Main.hetzner_config Main.world0))
  = calls Main.world0 ++ [ (ScalewayProvider_cls, m_provision_private_network);
                           (ScalewayProvider_cls, m_provision_private_subnets) ]
  /\ (ScalewayProvider_cls <> HCloudProvider_cls ->
      subnets (Examples.unbuilt ScalewayProvider_cls Main.hetzner_config) = None
      /\ sdk (snd (Provider.__init__ (methods_of ScalewayProvider_cls)
                     ScalewayProvider_cls Main.SSH_KEYS Main.hetzner_config
                     Main.world0))
         = sdk Main.world0
      /\ heap (snd (Provider.__init__ (methods_of ScalewayProvider_cls)
                      ScalewayProvider_cls Main.SSH_KEYS Main.hetzner_config
                      Main.world0))
         = heap Main.world0).
Proof.
  pose proof (init_enters_provision_private_subnets ScalewayProvider_cls
                Main.SSH_KEYS Main.hetzner_config Main.world0
                (snd (Provider.__init__ (methods_of ScalewayProvider_cls)
                        ScalewayProvider_cls Main.SSH_KEYS Main.hetzner_config
                        Main.world0))
                (Examples.unbuilt ScalewayProvider_cls Main.hetzner_config)
                eq_refl) as (H1 & H2 & _).
  exact (conj H1 H2).
Defined.

(** C8 fails as stated: a [ScalewayProvider], a class without subnet
    support, built from a configuration that lists a subnet, has its
    [provision_private_subnets] entered during construction. *)
Lemma scaleway_provision_private_subnets_entered :
  SupportsSubnets ScalewayProvider_cls = false
  /\ (exists nc sub,
        getitem Main.hetzner_config "network_config" = Ok nc
        /\ getitem nc "subnets" = Ok (PList [sub]))
  /\ (ScalewayProvider_cls, m_provision_private_subnets)
     ∈ calls (snd (new ScalewayProvider_cls Main.SSH_KEYS Main.hetzner_config
                     Main.world0)).
Proof.
  split; [reflexivity |].
  split; [do 2 eexists; split; reflexivity |].
  change (calls (snd (new ScalewayProvider_cls Main.SSH_KEYS Main.hetzner_config
                        Main.world0)))
    with [ (ScalewayProvider_cls, m_provision_private_network);
           (ScalewayProvider_cls, m_provision_private_subnets) ].
  apply list_elem_of_In. simpl. auto.
Qed.

(** ** The run of [__main__.py] *)

(** The program ends without an exception; the Hetzner provider holds one
    server resource, of type [cx11] and image [rocky-9], attached to the
    network with the address of [xardas]. *)
Example main_provisions_xardas :
  fst (Main.main Main.world0) = Ok tt
  /\ servers <$> (heap (snd (Main.main Main.world0)) !! 0)
     = Some [ Instance_entry
                {| res_id := 2;
                   res_args :=
                     hcloud_Server "xardas" "cx11" "rocky-9" Main.SSH_KEYS
                       [ {| sna_network_id := 0; sna_ip := Some "172.21.0.10" |} ]
                       (PStr "fsn1") |} ].
Proof. split; reflexivity. Qed.

(** An [HCloudProvider] whose configuration has no [location]: the
    construction succeeds, and a valid server is refused with the
    [KeyError] of the lookup. *)
Example hcloud_without_location :
  fst (new HCloudProvider_cls Main.SSH_KEYS Examples.no_location_config Main.world0)
  = Ok 0
  /\ fst (provision_server 0 Main.xardas
            (snd (new HCloudProvider_cls Main.SSH_KEYS Examples.no_location_config
                    Main.world0)))
     = Raise (KeyError "location").
Proof. split; reflexivity. Qed.

(** * Further properties of the module *)

(** ** The tables of the two concrete providers *)

Lemma concrete_tables_same_keys :
  dom HCloudProvider.set_sizes = dom ScalewayProvider.set_sizes
  /\ dom HCloudProvider.set_images = dom ScalewayProvider.set_images.
Proof. split; reflexivity. Qed.

(** X1: the size and image tables of [HCloudProvider] and of
    [ScalewayProvider] have the same keys, so a server descriptor is valid
    for the one exactly when it is valid for the other: a descriptor can
    be moved between the two providers unchanged. *)
Theorem concrete_providers_accept_same_servers (p q : obj) (s : Server.t) :
  sizes p = HCloudProvider.set_sizes ->
  images p = HCloudProvider.set_images ->
  sizes q = ScalewayProvider.set_sizes ->
  images q = ScalewayProvider.set_images ->
  Provider.server_object_is_valid p s = Provider.server_object_is_valid q s.
Proof.
  intros Hps Hpi Hqs Hqi. unfold Provider.server_object_is_valid.
  destruct concrete_tables_same_keys as [Hs Hi].
  by rewrite Hps, Hpi, Hqs, Hqi, Hs, Hi.
Qed.

Lemma concrete_providers_accept_same_servers_witness :
  Provider.server_object_is_valid Examples.hetzner_provider Main.xardas
  = Provider.server_object_is_valid Examples.scaleway_provider Main.xardas.
Proof.
  apply (concrete_providers_accept_same_servers Examples.hetzner_provider
           Examples.scaleway_provider Main.xardas); reflexivity.
Defined.

(** ** Construction of a provider *)

(** X2: when [provider_config] has no [network_config], or that has no
    [private_ip_range] (the lookup raises [e]), the construction of an
    [HCloudProvider] raises [e], creates no object and registers
    nothing. *)
Theorem hcloud_new_without_range
    (k : option (list string)) (cfg : pyval) (w : world) (e : exn) :
  (getitem cfg "network_config" = Raise e
   \/ exists nc, getitem cfg "network_config" = Ok nc
                 /\ getitem nc "private_ip_range" = Raise e) ->
  fst (new HCloudProvider_cls k cfg w) = Raise e
  /\ heap (snd (new HCloudProvider_cls k cfg w)) = heap w
  /\ sdk (snd (new HCloudProvider_cls k cfg w)) = sdk w.
Proof.
  intros H. unfold new, Provider.__init__. simpl.
  unfold HCloudProvider.provision_private_network. step_monad.
  destruct H as [H | (nc & Hnc & H)].
  - rewrite H. simpl. done.
  - rewrite Hnc. simpl. rewrite H. simpl. done.
Qed.

(** [HCloudProvider()] with the default arguments: [None] is not
    subscriptable. *)
Lemma hcloud_new_without_range_witness :
  fst (new HCloudProvider_cls None PNone Main.world0)
  = Raise (TypeError "'NoneType' object is not subscriptable")
  /\ heap (snd (new HCloudProvider_cls None PNone Main.world0)) = heap Main.world0
  /\ sdk (snd (new HCloudProvider_cls None PNone Main.world0)) = sdk Main.world0.
Proof.
  apply (hcloud_new_without_range None PNone Main.world0).
  left. reflexivity.
Defined.

(** X3: when the network can be registered but [network_config] has no
    [subnets] entry, or one that cannot be iterated, the construction of
    an [HCloudProvider] raises that error after the network has been
    registered: the registration stays, and no provider object exists to
    refer to it. *)
Theorem hcloud_new_without_subnets
    (k : option (list string)) (cfg nc r : pyval) (w : world) (e : exn) :
  getitem cfg "network_config" = Ok nc ->
  getitem nc "private_ip_range" = Ok r ->
  (getitem nc "subnets" = Raise e
   \/ exists v, getitem nc "subnets" = Ok v /\ iter v = Raise e) ->
  fst (new HCloudProvider_cls k cfg w) = Raise e
  /\ heap (snd (new HCloudProvider_cls k cfg w)) = heap w
  /\ sdk (snd (new HCloudProvider_cls k cfg w)) = sdk w ++ [hcloud_Network "network" r].
Proof.
  intros Hnc Hr H. unfold new, Provider.__init__. simpl.
  unfold HCloudProvider.provision_private_network,
    HCloudProvider.provision_private_subnets. step_monad.
  rewrite Hnc. simpl. rewrite Hr. simpl. rewrite ?Hnc. simpl.
  destruct H as [H | (v & Hv & H)].
  - rewrite H. simpl. done.
  - rewrite Hv. simpl. rewrite H. simpl. done.
Qed.

(** The Scaleway configuration of [__main__.py] given to an
    [HCloudProvider]. *)
Lemma hcloud_new_without_subnets_witness :
  fst (new HCloudProvider_cls Main.SSH_KEYS Main.scaleway_config Main.world0)
  = Raise (KeyError "subnets")
  /\ heap (snd (new HCloudProvider_cls Main.SSH_KEYS Main.scaleway_config Main.world0))
     = heap Main.world0
  /\ sdk (snd (new HCloudProvider_cls Main.SSH_KEYS Main.scaleway_config Main.world0))
     = sdk Main.world0 ++ [hcloud_Network "network" (PStr "172.22.0.0/16")].
Proof.
  apply (hcloud_new_without_subnets Main.SSH_KEYS Main.scaleway_config
           (PDict [ ("private_ip_range", PStr "172.22.0.0/16") ])
           (PStr "172.22.0.0/16") Main.world0 (KeyError "subnets"));
    [reflexivity | reflexivity | left; reflexivity].
Defined.

(** X4: from a configuration with a range and [n] well-formed subnet
    entries, the construction of an [HCloudProvider] registers the
    network and then the [n] subnets, each in the network just
    registered, and the new object, at the first free address, holds
    those handles, the tables of the class and an empty server list. *)
Theorem hcloud_new_ok
    (k : option (list string)) (cfg nc r : pyval) (l : list pyval) (w : world) :
  getitem cfg "network_config" = Ok nc ->
  getitem nc "private_ip_range" = Ok r ->
  getitem nc "subnets" = Ok (PList l) ->
  forallb is_subnet l = true ->
  exists hs,
    fst (new HCloudProvider_cls k cfg w) = Ok (length (heap w))
    /\ heap (snd (new HCloudProvider_cls k cfg w))
       = heap w ++ [ hcloud_built k cfg
                       {| res_id := length (sdk w);
                          res_args := hcloud_Network "network" r |} hs ]
    /\ sdk (snd (new HCloudProvider_cls k cfg w))
       = sdk w ++ hcloud_Network "network" r :: map res_args hs
    /\ length hs = length l
    /\ (forall i v, l !! i = Some v ->
          exists n r0, subnet_fields v = Some (n, r0)
                       /\ hs !! i = Some (subnet_handle (length (sdk w))
                                            (length (sdk w) + 1 + i) n r0)).
Proof.
  intros Hnc Hr Hsub Hall.
  set (net := {| res_id := length (sdk w);
                 res_args := hcloud_Network "network" r |}).
  set (self1 := {| class_of := HCloudProvider_cls; ssh_keys := k;
                   provider_config := cfg;
                   sizes := HCloudProvider.set_sizes;
                   images := HCloudProvider.set_images;
                   network := Some net; subnets := None; servers := [] |}).
  destruct (subnets_loop_ok self1 net l eq_refl Hall []
              {| heap := heap w;
                 sdk := sdk w ++ [hcloud_Network "network" r];
                 calls := (calls w ++ [(HCloudProvider_cls, m_provision_private_network)])
                          ++ [(HCloudProvider_cls, m_provision_private_subnets)] |})
    as (hs & Hrun & Hlen & Hnth).
  exists hs. unfold new, Provider.__init__. simpl.
  unfold HCloudProvider.provision_private_network,
    HCloudProvider.provision_private_subnets. step_monad.
  rewrite Hnc. simpl. rewrite Hr. simpl. rewrite ?Hnc. simpl. rewrite Hsub. simpl.
  fold net. fold self1. rewrite Hrun. simpl.
  split; [reflexivity | split; [reflexivity | split; [| split; [exact Hlen |]]]].
  - by rewrite <- app_assoc.
  - intros i v Hi. destruct (Hnth i v Hi) as (n & r0 & Hf & Hh).
    exists n, r0. split; [exact Hf |]. simpl in Hh.
    rewrite length_app in Hh. exact Hh.
Qed.

Lemma hcloud_new_ok_witness :
  exists hs,
    fst (new HCloudProvider_cls Main.SSH_KEYS Main.hetzner_config Main.world0) = Ok 0
    /\ heap (snd (new HCloudProvider_cls Main.SSH_KEYS Main.hetzner_config Main.world0))
       = [] ++ [ hcloud_built Main.SSH_KEYS Main.hetzner_config
                   {| res_id := 0;
                      res_args := hcloud_Network "network" (PStr "172.21.0.0/16") |}
                   hs ]
    /\ sdk (snd (new HCloudProvider_cls Main.SSH_KEYS Main.hetzner_config Main.world0))
       = [] ++ hcloud_Network "network" (PStr "172.21.0.0/16") :: map res_args hs
    /\ length hs = 1
    /\ (forall i v,
          [ PDict [ ("subnet_ip_range", PStr "172.21.0.0/24");
                    ("name", PStr "subnet1") ] ] !! i = Some v ->
          exists n r0, subnet_fields v = Some (n, r0)
                       /\ hs !! i = Some (subnet_handle 0 (0 + 1 + i) n r0)).
Proof.
  apply (hcloud_new_ok Main.SSH_KEYS Main.hetzner_config
           (PDict [ ("private_ip_range", PStr "172.21.0.0/16");
                    ("subnets",
                     PList [ PDict [ ("subnet_ip_range", PStr "172.21.0.0/24");
                                     ("name", PStr "subnet1") ] ]) ])
           (PStr "172.21.0.0/16")
           [ PDict [ ("subnet_ip_range", PStr "172.21.0.0/24");
                     ("name", PStr "subnet1") ] ]
           Main.world0); reflexivity.
Defined.

(** X5: the construction of a [ScalewayProvider] or of a base [Provider]
    never reads [provider_config]: whatever the configuration (the
    default [None] included) it returns a new object at the first free
    address, with no network, no subnets and no server, and registers
    nothing. *)
Theorem plain_new_ignores_config
    (c : cls) (k : option (list string)) (cfg : pyval) (w : world) :
  c <> HCloudProvider_cls ->
  fst (new c k cfg w) = Ok (length (heap w))
  /\ heap (snd (new c k cfg w)) = heap w ++ [plain_built c k cfg]
  /\ sdk (snd (new c k cfg w)) = sdk w.
Proof.
  intros Hc. destruct c; [| congruence |]; done.
Qed.

Lemma plain_new_ignores_config_witness :
  fst (new ScalewayProvider_cls None PNone Examples.world1) = Ok 2
  /\ heap (snd (new ScalewayProvider_cls None PNone Examples.world1))
     = heap Examples.world1 ++ [plain_built ScalewayProvider_cls None PNone]
  /\ sdk (snd (new ScalewayProvider_cls None PNone Examples.world1))
     = sdk Examples.world1.
Proof.
  apply (plain_new_ignores_config ScalewayProvider_cls None PNone Examples.world1).
  discriminate.
Defined.

(** ** A malformed subnet entry *)

(** The loop over well-formed entries followed by more entries: it
    registers the first ones in order and goes on with the rest. *)
Lemma subnets_loop_app (self : obj) (net : resource) (good rest : list pyval) :
  network self = Some net ->
  forallb is_subnet good = true ->
  forall (acc : list resource) (w : world),
  exists hs,
    HCloudProvider.subnets_loop self (good ++ rest) acc w
    = HCloudProvider.subnets_loop self rest (acc ++ hs)
        {| heap := heap w; sdk := sdk w ++ map res_args hs; calls := calls w |}
    /\ length hs = length good
    /\ (forall i v, good !! i = Some v ->
          exists n r, subnet_fields v = Some (n, r)
                      /\ hs !! i = Some (subnet_handle (res_id net)
                                           (length (sdk w) + i) n r)).
Proof.
  intros Hnet. induction good as [| v good IH]; intros Hall acc w.
  - exists []. simpl. rewrite !app_nil_r. split; [| split].
    + by destruct w.
    + reflexivity.
    + intros i v Hi. by rewrite lookup_nil in Hi.
  - simpl in Hall. apply andb_true_iff in Hall as [Hv Hall].
    destruct (is_subnet_fields v Hv) as (n & r & Hf & Hn & Hr).
    specialize (IH Hall (acc ++ [subnet_handle (res_id net) (length (sdk w)) n r])
                  {| heap := heap w;
                     sdk := sdk w ++ [hcloud_NetworkSubnet n (res_id net) r
                                        "eu-central" "cloud"];
                     calls := calls w |}).
    destruct IH as (hs & Hrun & Hlen & Hnth).
    exists (subnet_handle (res_id net) (length (sdk w)) n r :: hs).
    split; [| split].
    + simpl. step_monad. unfold network_id. rewrite Hn, Hnet, Hr. simpl.
      unfold subnet_handle in Hrun at 1. rewrite Hrun. simpl.
      by rewrite <- !app_assoc.
    + simpl. by rewrite Hlen.
    + intros [| i] u Hi; simpl in Hi.
      * injection Hi as <-. exists n, r. split; [exact Hf |].
        simpl. by rewrite Nat.add_0_r.
      * destruct (Hnth i u Hi) as (n2 & r2 & Hf2 & Hh).
        exists n2, r2. split; [exact Hf2 |]. simpl in *.
        rewrite Hh. rewrite length_app. simpl.
        do 2 f_equal. lia.
Qed.

(** The loop at an entry that lacks its name or its range. *)
Lemma subnets_loop_bad (self : obj) (net : resource) (bad : pyval)
    (rest : list pyval) (acc : list resource) (w : world) :
  network self = Some net ->
  is_subnet bad = false ->
  exists e, HCloudProvider.subnets_loop self (bad :: rest) acc w = (Raise e, w).
Proof.
  intros Hnet Hbad. unfold is_subnet, subnet_fields in Hbad. simpl. step_monad.
  unfold network_id. rewrite Hnet.
  destruct (getitem bad "name") as [n | e]; simpl.
  - destruct (getitem bad "subnet_ip_range") as [r | e]; [discriminate |].
    simpl. eauto.
  - eauto.
Qed.

(** X6: [provision_private_subnets] of [HCloudProvider] stops at the
    first subnet entry that lacks its name or its range: it raises, and
    the subnets listed before that entry, and only they, have been
    registered, in order; nothing withdraws them. *)
Theorem provision_private_subnets_stops_at_bad_entry
    (self : obj) (w : world) (net : resource) (nc bad : pyval)
    (good rest : list pyval) :
  getitem (provider_config self) "network_config" = Ok nc ->
  getitem nc "subnets" = Ok (PList (good ++ bad :: rest)) ->
  network self = Some net ->
  forallb is_subnet good = true ->
  is_subnet bad = false ->
  exists e hs,
    fst (HCloudProvider.provision_private_subnets self w) = Raise e
    /\ sdk (snd (HCloudProvider.provision_private_subnets self w))
       = sdk w ++ map res_args hs
    /\ length hs = length good
    /\ (forall i v, good !! i = Some v ->
          exists n r, subnet_fields v = Some (n, r)
                      /\ hs !! i = Some (subnet_handle (res_id net)
                                           (length (sdk w) + i) n r)).
Proof.
  intros Hnc Hsub Hnet Hgood Hbad.
  set (w1 := {| heap := heap w; sdk := sdk w;
                calls := calls w ++ [(class_of self, m_provision_private_subnets)] |}).
  destruct (subnets_loop_app self net good (bad :: rest) Hnet Hgood [] w1)
    as (hs & Hrun & Hlen & Hnth).
  destruct (subnets_loop_bad self net bad rest ([] ++ hs)
              {| heap := heap w1; sdk := sdk w1 ++ map res_args hs;
                 calls := calls w1 |} Hnet Hbad) as (e & Hraise).
  exists e, hs. unfold HCloudProvider.provision_private_subnets. step_monad.
  rewrite Hnc, Hsub. simpl. fold w1. rewrite Hrun, Hraise. simpl. auto.
Qed.

Lemma provision_private_subnets_stops_at_bad_entry_witness :
  exists e hs,
    fst (HCloudProvider.provision_private_subnets More.broken_self More.after_network)
    = Raise e
    /\ sdk (snd (HCloudProvider.provision_private_subnets More.broken_self
                   More.after_network))
       = sdk More.after_network ++ map res_args hs
    /\ length hs = 1
    /\ (forall i v,
          [ PDict [ ("subnet_ip_range", PStr "10.1.0.0/16");
                    ("name", PStr "first") ] ] !! i = Some v ->
          exists n r, subnet_fields v = Some (n, r)
                      /\ hs !! i = Some (subnet_handle 0 (1 + i) n r)).
Proof.
  apply (provision_private_subnets_stops_at_bad_entry More.broken_self
           More.after_network
           {| res_id := 0;
              res_args := hcloud_Network "network" (PStr "10.0.0.0/8") |}
           (PDict [ ("private_ip_range", PStr "10.0.0.0/8");
                    ("subnets",
                     PList [ PDict [ ("subnet_ip_range", PStr "10.1.0.0/16");
                                     ("name", PStr "first") ];
                             PDict [ ("name", PStr "second") ];
                             PDict [ ("subnet_ip_range", PStr "10.3.0.0/16");
                                     ("name", PStr "third") ] ]) ])
           (PDict [ ("name", PStr "second") ])
           [ PDict [ ("subnet_ip_range", PStr "10.1.0.0/16");
                     ("name", PStr "first") ] ]
           [ PDict [ ("subnet_ip_range", PStr "10.3.0.0/16");
                     ("name", PStr "third") ] ]);
    reflexivity.
Defined.

(** ** Registrations are never withdrawn *)

Section Extends.
Context {X : Type} (proj : world -> list X).

Lemma extends_keeps {A} (m : M A) : keeps proj m -> extends proj m.
Proof. intros H w. by rewrite H. Qed.

Lemma extends_bind {A B} (m : M A) (k : A -> M B) :
  extends proj m -> (forall a, extends proj (k a)) -> extends proj (bind m k).
Proof.
  intros Hm Hk w. unfold bind. specialize (Hm w).
  destruct (m w) as [[a | e] w1]; simpl in *.
  - etrans; [exact Hm | apply Hk].
  - exact Hm.
Qed.

Lemma extends_if {A} (b : bool) (m1 m2 : M A) :
  extends proj m1 -> extends proj m2 -> extends proj (if b then m1 else m2).
Proof. by destruct b. Qed.
End Extends.

Lemma keeps_sdk_store (l : nat) (o : obj) : keeps sdk (store l o).
Proof. intros w. reflexivity. Qed.

Lemma keeps_sdk_alloc (o : obj) : keeps sdk (alloc o).
Proof. intros w. reflexivity. Qed.

Lemma extends_sdk_new (c : sdk_call) : extends sdk (sdk_new c).
Proof. intros w. simpl. by apply prefix_app_r. Qed.

Create HintDb ext discriminated.
#[local] Hint Resolve keeps_ret keeps_raise keeps_lift keeps_deref
  keeps_sdk_enter keeps_sdk_store keeps_sdk_alloc : ext.
#[local] Hint Resolve extends_sdk_new : ext.

Ltac solve_ext :=
  repeat match goal with
         | |- extends _ (bind _ _) => apply extends_bind; [| intros ?]
         | |- extends _ (if _ then _ else _) => apply extends_if
         | |- extends _ (append_server _ _) => unfold append_server
         end;
  first [ solve [eauto with ext]
        | solve [apply extends_keeps; eauto with ext]
        | idtac ].

Lemma extends_sdk_subnets_loop (self : obj) (todo : list pyval) :
  forall acc, extends sdk (HCloudProvider.subnets_loop self todo acc).
Proof.
  induction todo as [| subnet todo IH]; intros acc; simpl.
  - solve_ext.
  - repeat (apply extends_bind; [solve_ext | intros ?]). apply IH.
Qed.

Lemma extends_sdk_network (c : cls) (self : obj) :
  extends sdk (provision_private_network_of (methods_of c) self).
Proof.
  destruct c; simpl;
    unfold Provider.provision_private_network,
      HCloudProvider.provision_private_network; solve_ext.
Qed.

Lemma extends_sdk_subnets (c : cls) (self : obj) :
  extends sdk (provision_private_subnets_of (methods_of c) self).
Proof.
  destruct c; simpl;
    unfold Provider.provision_private_subnets,
      HCloudProvider.provision_private_subnets;
    repeat (apply extends_bind; [solve_ext | intros ?]);
    try apply extends_sdk_subnets_loop; solve_ext.
Qed.

Lemma extends_sdk_init (c : cls) (k : option (list string)) (cfg : pyval) :
  extends sdk (Provider.__init__ (methods_of c) c k cfg).
Proof.
  unfold Provider.__init__.
  apply extends_bind; [apply extends_sdk_network | intros ?].
  apply extends_bind; [apply extends_sdk_subnets | intros ?]. solve_ext.
Qed.

Lemma extends_sdk_new_object (c : cls) (k : option (list string)) (cfg : pyval) :
  extends sdk (new c k cfg).
Proof.
  unfold new. apply extends_bind; [apply extends_sdk_init | intros ?]. solve_ext.
Qed.

Lemma extends_sdk_provision_server (l : nat) (s : Server.t) :
  extends sdk (provision_server l s).
Proof.
  unfold provision_server. apply extends_bind; [solve_ext | intros self].
  destruct (class_of self).
  - unfold Provider.provision_server. solve_ext.
  - unfold HCloudProvider.provision_server. solve_ext.
  - unfold ScalewayProvider.provision_server. solve_ext.
Qed.

Lemma exec_sdk (o : op) (w : world) : sdk w `prefix_of` sdk (exec o w).
Proof.
  destruct o; simpl.
  - apply extends_sdk_new_object.
  - match goal with |- _ `prefix_of` sdk (snd (?m w)) =>
      assert (extends sdk m) as H by solve_ext; apply H end.
  - match goal with |- _ `prefix_of` sdk (snd (?m w)) =>
      assert (extends sdk m) as H by solve_ext; apply H end.
  - match goal with |- _ `prefix_of` sdk (snd (?m w)) =>
      assert (extends sdk m) as H
        by (apply extends_bind; [solve_ext | intros ?; apply extends_sdk_network]);
      apply H end.
  - match goal with |- _ `prefix_of` sdk (snd (?m w)) =>
      assert (extends sdk m) as H
        by (apply extends_bind; [solve_ext | intros ?; apply extends_sdk_subnets]);
      apply H end.
  - apply extends_sdk_provision_server.
  - unfold Provider.provision_security_group.
    match goal with |- _ `prefix_of` sdk (snd (?m w)) =>
      assert (extends sdk m) as H by solve_ext; apply H end.
  - match goal with |- _ `prefix_of` sdk (snd (?m w)) =>
      assert (extends sdk m) as H by solve_ext; apply H end.
  - match goal with |- _ `prefix_of` sdk (snd (?m w)) =>
      assert (extends sdk m) as H by solve_ext; apply H end.
  - unfold Infra.provision_server.
    destruct (Infra.providers i !! provider_name) as [l |].
    + apply extends_sdk_provision_server.
    + done.
  - done.
  - done.
Qed.




(** ** What every provider built by the module satisfies *)

Lemma registered_mono (s s' : list sdk_call) (h : resource) :
  s `prefix_of` s' -> registered s h -> registered s' h.
Proof.
  intros [ext ->] Hh. unfold registered in *. by apply lookup_app_l_Some.
Qed.

Lemma registered_last (s : list sdk_call) (c : sdk_call) :
  registered (s ++ [c]) {| res_id := length s; res_args := c |}.
Proof.
  unfold registered. simpl. by rewrite lookup_app_r, Nat.sub_diag.
Qed.

Lemma wf_obj_mono (s s' : list sdk_call) (o : obj) :
  s `prefix_of` s' -> wf_obj s o -> wf_obj s' o.
Proof.
  intros Hp (Hs & Hi & Hc). split; [exact Hs | split; [exact Hi |]].
  destruct (class_of o); [exact Hc | | exact Hc].
  destruct Hc as (net & hs & Hn & Hrn & Hnet & Hsub & Hhs & Hsv).
  exists net, hs. repeat split; try done.
  - by eapply registered_mono.
  - eapply Forall_impl; [exact Hhs |]. intros h [Hr Hin].
    split; [by eapply registered_mono | exact Hin].
  - eapply Forall_impl; [exact Hsv |].
    intros e (h & nm & ty & im & k & ip & loc & -> & Hr & Ha).
    exists h, nm, ty, im, k, ip, loc.
    split; [done | split; [by eapply registered_mono | exact Ha]].
Qed.

Lemma wf_same_heap (w w' : world) :
  heap w' = heap w -> sdk w `prefix_of` sdk w' -> wf w -> wf w'.
Proof.
  intros Hh Hp Hw l o Hl. rewrite Hh in Hl.
  eapply wf_obj_mono; [exact Hp | by unfold wf in Hw; eapply Hw].
Qed.

(** The handles a completed loop returns: those it was given, then
    registered subnets of the network of [self]. *)
Lemma subnets_loop_handles (self : obj) (net : resource) (todo : list pyval) :
  network self = Some net ->
  forall (acc hs' : list resource) (w w' : world),
    HCloudProvider.subnets_loop self todo acc w = (Ok hs', w') ->
    exists hs,
      hs' = acc ++ hs
      /\ Forall (fun h => registered (sdk w') h /\ in_network (res_id net) h) hs.
Proof.
  intros Hnet. induction todo as [| v todo IH]; intros acc hs' w w' Hrun.
  - simpl in Hrun. unfold ret in Hrun. injection Hrun as <- <-.
    exists []. by rewrite app_nil_r.
  - simpl in Hrun. revert Hrun. step_monad. unfold network_id. rewrite Hnet.
    destruct (getitem v "name") as [n | e]; simpl; [| discriminate].
    destruct (getitem v "subnet_ip_range") as [r | e]; simpl; [| discriminate].
    intros Hrun.
    match type of Hrun with
    | HCloudProvider.subnets_loop _ _ ?a ?w1 = _ =>
        pose proof (extends_sdk_subnets_loop self todo a w1) as Hp
    end.
    rewrite Hrun in Hp. simpl in Hp.
    destruct (IH _ _ _ _ Hrun) as (hs & -> & Hhs).
    eexists (_ :: hs). split; [by rewrite <- app_assoc |].
    constructor; [| exact Hhs]. split.
    + eapply registered_mono; [exact Hp |]. apply registered_last.
    + by exists n, r.
Qed.

Lemma init_wf (c : cls) (k : option (list string)) (cfg : pyval)
    (w w' : world) (o : obj) :
  Provider.__init__ (methods_of c) c k cfg w = (Ok o, w') ->
  wf_obj (sdk w') o /\ class_of o = c /\ servers o = [].
Proof.
  destruct c.
  - intros [= <- <-]. repeat split; constructor.
  - unfold Provider.__init__. simpl.
    unfold HCloudProvider.provision_private_network,
      HCloudProvider.provision_private_subnets. step_monad.
    destruct (getitem cfg "network_config") as [nc | e]; simpl; [| discriminate].
    destruct (getitem nc "private_ip_range") as [r | e]; simpl; [| discriminate].
    destruct (getitem nc "subnets") as [sub | e]; simpl; [| discriminate].
    destruct (iter sub) as [todo | e]; simpl; [| discriminate].
    match goal with
    | |- context [HCloudProvider.subnets_loop ?self todo [] ?w1] =>
        pose proof (subnets_loop_handles self _ todo eq_refl [] ) as Hloop;
        pose proof (extends_sdk_subnets_loop self todo [] w1) as Hp;
        destruct (HCloudProvider.subnets_loop self todo [] w1)
          as [[hs | e] w2] eqn:Hrun; [| discriminate]
    end.
    intros [= <- <-]. simpl in *.
    destruct (Hloop _ _ _ Hrun) as (hs0 & -> & Hhs).
    repeat split; simpl; try done.
    eexists _, hs0. repeat split; try done.
    + eapply registered_mono; [exact Hp |]. apply registered_last.
    + by eexists.
  - intros [= <- <-]. repeat split; constructor.
Qed.

Lemma new_wf (c : cls) (k : option (list string)) (cfg : pyval) (w : world) :
  wf w -> wf (snd (new c k cfg w)).
Proof.
  intros Hw. unfold new, bind.
  pose proof (keeps_heap_init c k cfg w) as Hh.
  pose proof (extends_sdk_init c k cfg w) as Hp.
  destruct (Provider.__init__ (methods_of c) c k cfg w) as [[o | e] w1] eqn:Hinit;
    simpl in *.
  - intros l p Hl. simpl in *. rewrite Hh in Hl.
    apply lookup_app_Some in Hl as [Hl | [_ Hl]].
    + eapply wf_obj_mono; [exact Hp | by unfold wf in Hw; eapply Hw].
    + destruct (l - length (heap w)); simpl in Hl; [| by rewrite lookup_nil in Hl].
      injection Hl as <-. by destruct (init_wf c k cfg w w1 o Hinit).
  - by apply (wf_same_heap w w1).
Qed.

Lemma wf_insert (w : world) (l : nat) (o : obj) (h : list obj) (s : list sdk_call)
    (c : list (cls * method)) :
  wf w -> sdk w `prefix_of` s -> h = <[l := o]> (heap w) -> wf_obj s o ->
  wf {| heap := h; sdk := s; calls := c |}.
Proof.
  intros Hw Hp -> Ho l0 p Hl. simpl in *.
  destruct (decide (l0 = l)) as [-> | Hne].
  - destruct (decide (l < length (heap w))) as [Hlt | Hge].
    + rewrite list_lookup_insert_eq in Hl by done. by injection Hl as <-.
    + rewrite list_insert_ge in Hl by lia.
      eapply wf_obj_mono; [exact Hp | by unfold wf in Hw; eapply Hw].
  - rewrite list_lookup_insert_ne in Hl by done.
    eapply wf_obj_mono; [exact Hp | by unfold wf in Hw; eapply Hw].
Qed.

Lemma wf_set_tables_sizes (s : list sdk_call) (o : obj) :
  wf_obj s o ->
  wf_obj s (set_tables o (set_sizes_of (methods_of (class_of o))) (images o)).
Proof. intros (Hs & Hi & Hc). by repeat split. Qed.

Lemma wf_set_tables_images (s : list sdk_call) (o : obj) :
  wf_obj s o ->
  wf_obj s (set_tables o (sizes o) (set_images_of (methods_of (class_of o)))).
Proof. intros (Hs & Hi & Hc). by repeat split. Qed.

Lemma provision_server_wf (l : nat) (s : Server.t) (w : world) :
  wf w -> wf (snd (provision_server l s w)).
Proof.
  intros Hw.
  destruct (heap w !! l) as [p |] eqn:Hl.
  2:{ unfold provision_server. step_monad. by rewrite Hl. }
  pose proof (Hw l p Hl) as (Hs & Hi & Hc).
  destruct (class_of p) eqn:Hcls.
  - destruct (provision_server_base l w p s Hl Hcls) as [msg ->]. exact Hw.
  - destruct Hc as (net & hs & Hnet & Hrn & Hnk & Hsub & Hhs & Hsv).
    destruct (Provider.server_object_is_valid p s) eqn:Hv.
    + destruct (valid_lookup p s Hv) as (ty & im & Hty & Him).
      destruct (getitem (provider_config p) "location") as [loc | e] eqn:Hloc.
      * rewrite (hcloud_provision_server_valid l w p s ty im net loc) by done.
        simpl. eapply wf_insert; [exact Hw | by apply prefix_app_r | reflexivity |].
        split; [simpl; by rewrite Hcls | split; [simpl; by rewrite Hcls |]]. simpl. rewrite Hcls.
        exists net, hs. repeat split; try done.
        -- eapply registered_mono; [by apply prefix_app_r | done].
        -- eapply Forall_impl; [exact Hhs |]. intros h [Hr Hin].
           split; [eapply registered_mono; [by apply prefix_app_r | done] | done].
        -- apply Forall_app. split.
           ++ eapply Forall_impl; [exact Hsv |].
              intros e (h & nm & ty0 & im0 & k & ip & loc0 & -> & Hr & Ha).
              exists h, nm, ty0, im0, k, ip, loc0.
              split; [done | split; [| done]].
              eapply registered_mono; [by apply prefix_app_r | done].
           ++ constructor; [| constructor].
              eexists _, _, _, _, _, _, _.
              split; [reflexivity | split; [apply registered_last | reflexivity]].
      * rewrite (hcloud_provision_server_no_location l w p s net e) by done.
        by apply (wf_same_heap w).
    + rewrite (provision_server_invalid l w p s Hl) by (done || congruence).
      by apply (wf_same_heap w).
  - destruct Hc as (Hnet & Hsub & Hsv).
    destruct (Provider.server_object_is_valid p s) eqn:Hv.
    + destruct (valid_lookup p s Hv) as (ty & im & Hty & Him).
      rewrite (scaleway_provision_server_valid l w p s ty im) by done.
      simpl. eapply wf_insert; [exact Hw | by apply prefix_app_r | reflexivity |].
      split; [simpl; by rewrite Hcls | split; [simpl; by rewrite Hcls |]]. simpl. rewrite Hcls.
      repeat split; try done.
      apply Forall_app. split; [exact Hsv |].
      constructor; [by eexists | constructor].
    + rewrite (provision_server_invalid l w p s Hl) by (done || congruence).
      by apply (wf_same_heap w).
Qed.

Lemma deref_store_wf (l : nat) (f : obj -> obj) (w : world) :
  (forall s o, wf_obj s o -> wf_obj s (f o)) ->
  wf w -> wf (snd ((self <- deref l ;; store l (f self)) w)).
Proof.
  intros Hf Hw. unfold bind, deref.
  destruct (heap w !! l) as [p |] eqn:Hl; simpl; [| exact Hw].
  destruct w as [h sd c]. simpl in *.
  eapply (wf_insert {| heap := h; sdk := sd; calls := c |});
    [exact Hw | done | reflexivity | apply Hf; by apply (Hw l)].
Qed.

Lemma exec_wf (o : op) (w : world) : wf w -> wf (exec o w).
Proof.
  intros Hw.
  assert (forall w', heap w' = heap w -> sdk w `prefix_of` sdk w' -> wf w') as Hsame
    by (intros w' Hh Hp; by apply (wf_same_heap w)).
  destruct o; simpl.
  - by apply new_wf.
  - apply (deref_store_wf l
             (fun self => set_tables self (set_sizes_of (methods_of (class_of self)))
                            (images self))); [apply wf_set_tables_sizes | exact Hw].
  - apply (deref_store_wf l
             (fun self => set_tables self (sizes self)
                            (set_images_of (methods_of (class_of self)))));
      [apply wf_set_tables_images | exact Hw].
  - apply Hsame; [| apply (exec_sdk (Op_provision_private_network l))].
    apply deref_then_keeps. intros o. apply keeps_heap_network.
  - apply Hsame; [| apply (exec_sdk (Op_provision_private_subnets l))].
    apply deref_then_keeps. intros o. apply keeps_heap_subnets.
  - by apply provision_server_wf.
  - apply Hsame; [| apply (exec_sdk (Op_provision_security_group l g))].
    unfold Provider.provision_security_group.
    apply deref_then_keeps. intros o. solve_keeps.
  - apply Hsame; [| apply (exec_sdk (Op_network_config_is_valid l network_config))].
    apply deref_then_keeps. intros o. solve_keeps.
  - apply Hsame; [| apply (exec_sdk (Op_server_object_is_valid l server))].
    apply deref_then_keeps. intros o. solve_keeps.
  - unfold Infra.provision_server.
    destruct (Infra.providers i !! provider_name) as [l |].
    + by apply provision_server_wf.
    + exact Hw.
  - exact Hw.
  - exact Hw.
Qed.

Lemma run_wf (ops : list op) : forall w, wf w -> wf (run ops w).
Proof.
  induction ops as [| o ops IH]; intros w Hw; simpl.
  - exact Hw.
  - apply IH. by apply exec_wf.
Qed.

Lemma world0_wf : wf Main.world0.
Proof. intros l o Hl. simpl in Hl. by rewrite lookup_nil in Hl. Qed.

Lemma reachable_wf (ops : list op) : wf (run ops Main.world0).
Proof. apply run_wf, world0_wf. Qed.

Example demo_heap :
  heap (run Demo.ops Main.world0) = [Demo.hetzner; Demo.scaleway; Demo.base].
Proof. reflexivity. Qed.

(** X8: every provider object the module builds, after any sequence of
    its operations, has the size and image tables of its class, so two
    providers of one class validate every server alike: the tables are
    not configurable. *)
Theorem built_providers_have_class_tables
    (ops1 ops2 : list op) (l1 l2 : nat) (p q : obj) (s : Server.t) :
  heap (run ops1 Main.world0) !! l1 = Some p ->
  heap (run ops2 Main.world0) !! l2 = Some q ->
  class_of p = class_of q ->
  sizes p = set_sizes_of (methods_of (class_of p))
  /\ images p = set_images_of (methods_of (class_of p))
  /\ Provider.server_object_is_valid p s = Provider.server_object_is_valid q s.
Proof.
  intros Hp Hq Hc.
  destruct (reachable_wf ops1 l1 p Hp) as (Hps & Hpi & _).
  destruct (reachable_wf ops2 l2 q Hq) as (Hqs & Hqi & _).
  split; [exact Hps | split; [exact Hpi |]].
  unfold Provider.server_object_is_valid. by rewrite Hps, Hpi, Hqs, Hqi, Hc.
Qed.

Lemma built_providers_have_class_tables_witness :
  sizes Demo.hetzner = set_sizes_of (methods_of (class_of Demo.hetzner))
  /\ images Demo.hetzner = set_images_of (methods_of (class_of Demo.hetzner))
  /\ Provider.server_object_is_valid Demo.hetzner More.milten
     = Provider.server_object_is_valid Examples.hetzner_provider More.milten.
Proof.
  apply (built_providers_have_class_tables Demo.ops
           [ Op_new HCloudProvider_cls Main.SSH_KEYS Main.hetzner_config ]
           0 0 Demo.hetzner Examples.hetzner_provider More.milten);
    reflexivity.
Defined.

(** X9: after any sequence of operations, an [HCloudProvider] the module
    built has a network handle that denotes a registered [hcloud.Network],
    its subnet handles denote registered subnets of that network, and
    every entry of its server list is a registered [hcloud.Server]
    attached to that same network and to no other. *)
Theorem hcloud_provider_handles_registered (ops : list op) (l : nat) (p : obj) :
  heap (run ops Main.world0) !! l = Some p ->
  class_of p = HCloudProvider_cls ->
  exists net hs,
    network p = Some net
    /\ registered (sdk (run ops Main.world0)) net
    /\ (exists r, res_args net = hcloud_Network "network" r)
    /\ subnets p = Some hs
    /\ Forall (fun h => registered (sdk (run ops Main.world0)) h
                        /\ in_network (res_id net) h) hs
    /\ Forall (server_in_network (sdk (run ops Main.world0)) (res_id net))
         (servers p).
Proof.
  intros Hl Hc. destruct (reachable_wf ops l p Hl) as (_ & _ & H).
  rewrite Hc in H. exact H.
Qed.

Lemma hcloud_provider_handles_registered_witness :
  exists net hs,
    network Demo.hetzner = Some net
    /\ registered (sdk (run Demo.ops Main.world0)) net
    /\ (exists r, res_args net = hcloud_Network "network" r)
    /\ subnets Demo.hetzner = Some hs
    /\ Forall (fun h => registered (sdk (run Demo.ops Main.world0)) h
                        /\ in_network (res_id net) h) hs
    /\ Forall (server_in_network (sdk (run Demo.ops Main.world0)) (res_id net))
         (servers Demo.hetzner).
Proof.
  apply (hcloud_provider_handles_registered Demo.ops 0 Demo.hetzner); reflexivity.
Defined.

(** X10: after any sequence of operations, a provider of the base class
    holds no server, and a [ScalewayProvider] has neither network nor
    subnets and its server list holds server descriptors only. *)
Theorem plain_provider_state (ops : list op) (l : nat) (p : obj) :
  heap (run ops Main.world0) !! l = Some p ->
  class_of p <> HCloudProvider_cls ->
  network p = None
  /\ subnets p = None
  /\ Forall is_descriptor (servers p)
  /\ (class_of p = Provider_cls -> servers p = []).
Proof.
  intros Hl Hc. destruct (reachable_wf ops l p Hl) as (_ & _ & H).
  destruct (class_of p); [| congruence |].
  - destruct H as (Hn & Hs & ->). by repeat split.
  - destruct H as (Hn & Hs & Hd). by repeat split.
Qed.

Lemma plain_provider_state_witness :
  (network Demo.scaleway = None
   /\ subnets Demo.scaleway = None
   /\ Forall is_descriptor (servers Demo.scaleway)
   /\ (class_of Demo.scaleway = Provider_cls -> servers Demo.scaleway = []))
  /\ (network Demo.base = None
      /\ subnets Demo.base = None
      /\ Forall is_descriptor (servers Demo.base)
      /\ (class_of Demo.base = Provider_cls -> servers Demo.base = [])).
Proof.
  split.
  - apply (plain_provider_state Demo.ops 1 Demo.scaleway);
      [reflexivity | discriminate].
  - apply (plain_provider_state Demo.ops 2 Demo.base);
      [reflexivity | discriminate].
Defined.

(** X11: on an [HCloudProvider] the module built, after any sequence of
    operations, [provision_server] of a valid server fails only at the
    lookup of [location] in [provider_config]: where that lookup returns,
    the server is provisioned; where it raises, that error is the one
    raised, nothing is registered and no object changes. *)
Theorem hcloud_valid_server_fails_only_on_location
    (ops : list op) (l : nat) (p : obj) (s : Server.t) :
  heap (run ops Main.world0) !! l = Some p ->
  class_of p = HCloudProvider_cls ->
  Provider.server_object_is_valid p s = true ->
  (forall loc, getitem (provider_config p) "location" = Ok loc ->
     fst (provision_server l s (run ops Main.world0)) = Ok tt)
  /\ (forall e, getitem (provider_config p) "location" = Raise e ->
        fst (provision_server l s (run ops Main.world0)) = Raise e
        /\ sdk (snd (provision_server l s (run ops Main.world0)))
           = sdk (run ops Main.world0)
        /\ heap (snd (provision_server l s (run ops Main.world0)))
           = heap (run ops Main.world0)).
Proof.
  intros Hl Hc Hv. destruct (reachable_wf ops l p Hl) as (_ & _ & H).
  rewrite Hc in H. destruct H as (net & hs & Hnet & _).
  destruct (valid_lookup p s Hv) as (ty & im & Hty & Him).
  split.
  - intros loc Hloc.
    by rewrite (hcloud_provision_server_valid l _ p s ty im net loc).
  - intros e Hloc.
    by rewrite (hcloud_provision_server_no_location l _ p s net e).
Qed.

Lemma hcloud_valid_server_fails_only_on_location_witness :
  (forall loc, getitem (provider_config Demo.hetzner) "location" = Ok loc ->
     fst (provision_server 0 More.diego (run Demo.ops Main.world0)) = Ok tt)
  /\ (forall e, getitem (provider_config Demo.hetzner) "location" = Raise e ->
        fst (provision_server 0 More.diego (run Demo.ops Main.world0)) = Raise e
        /\ sdk (snd (provision_server 0 More.diego (run Demo.ops Main.world0)))
           = sdk (run Demo.ops Main.world0)
        /\ heap (snd (provision_server 0 More.diego (run Demo.ops Main.world0)))
           = heap (run Demo.ops Main.world0)).
Proof.
  apply (hcloud_valid_server_fails_only_on_location Demo.ops 0 Demo.hetzner
           More.diego); reflexivity.
Defined.

(** ** The orchestrator *)


Lemma set_servers_twice (p : obj) (xs ys : list server_entry) :
  set_servers (set_servers p xs) ys = set_servers p ys.
Proof. reflexivity. Qed.

(** X12: a provider of the base class registered with the orchestrator
    cannot provision: [Provider.provision_server] takes a size and an
    image, so the call [provision_server(server)] the orchestrator makes
    raises [TypeError] for every server, and nothing changes. *)
Theorem Infra_provision_server_base
    (i : Infra.t) (s : Server.t) (provider_name : string) (l : nat)
    (p : obj) (w : world) :
  Infra.providers i !! provider_name = Some l ->
  heap w !! l = Some p ->
  class_of p = Provider_cls ->
  exists msg,
    Infra.provision_server i s provider_name w = (Raise (TypeError msg), w).
Proof.
  intros Hn Hl Hc. unfold Infra.provision_server. rewrite Hn.
  by apply (provision_server_base l w p s).
Qed.

Lemma Infra_provision_server_base_witness :
  exists msg,
    Infra.provision_server More.aliased Main.xardas "base" More.world2
    = (Raise (TypeError msg), More.world2).
Proof.
  apply (Infra_provision_server_base More.aliased Main.xardas "base" 2
           (plain_built Provider_cls None PNone) More.world2); reflexivity.
Defined.

(** X13: [Infra.provision_server] changes no provider but the one the
    name stands for: every other address of the heap holds the object it
    held, and no object is created or removed. *)
Theorem Infra_provision_server_frame
    (i : Infra.t) (s : Server.t) (provider_name : string) (l l' : nat) (w : world) :
  Infra.providers i !! provider_name = Some l ->
  l' <> l ->
  heap (snd (Infra.provision_server i s provider_name w)) !! l' = heap w !! l'
  /\ length (heap (snd (Infra.provision_server i s provider_name w)))
     = length (heap w).
Proof.
  intros Hn Hne. unfold Infra.provision_server. rewrite Hn.
  destruct (provision_server_heap l s w) as [(e & _ & ->) | (p & x & _ & _ & ->)].
  - done.
  - split; [by apply list_lookup_insert_ne | by rewrite length_insert].
Qed.

Lemma Infra_provision_server_frame_witness :
  heap (snd (Infra.provision_server Examples.infra Main.xardas "hetzner"
               Examples.world1)) !! 1
  = heap Examples.world1 !! 1
  /\ length (heap (snd (Infra.provision_server Examples.infra Main.xardas "hetzner"
                          Examples.world1)))
     = length (heap Examples.world1).
Proof.
  apply (Infra_provision_server_frame Examples.infra Main.xardas "hetzner" 0 1
           Examples.world1); [reflexivity | discriminate].
Defined.

Lemma request_ok_valid (i : Infra.t) (l : nat) (p : obj) (xs : list server_entry)
    (r : Server.t * string) :
  request_ok i l p r = request_ok i l (set_servers p xs) r.
Proof. reflexivity. Qed.



(** ** Servers in sequence on an [HCloudProvider] *)



(** ** Subnets that are not a list *)

(** X16: when [subnets] is a dict with at least one key (one subnet
    written without the enclosing list), the loop of
    [HCloudProvider.provision_private_subnets] visits the keys, which are
    strings, and the first subscript raises [TypeError]; no subnet is
    registered. *)
Theorem provision_private_subnets_dict
    (self : obj) (w : world) (nc : pyval)
    (k : string) (x : pyval) (d : list (string * pyval)) :
  getitem (provider_config self) "network_config" = Ok nc ->
  getitem nc "subnets" = Ok (PDict ((k, x) :: d)) ->
  fst (HCloudProvider.provision_private_subnets self w)
  = Raise (TypeError "string indices must be integers")
  /\ sdk (snd (HCloudProvider.provision_private_subnets self w)) = sdk w.
Proof.
  intros Hnc Hsub.
  unfold HCloudProvider.provision_private_subnets. step_monad.
  rewrite Hnc, Hsub. simpl. done.
Qed.

Lemma provision_private_subnets_dict_witness :
  fst (HCloudProvider.provision_private_subnets Unwrapped.self More.after_network)
  = Raise (TypeError "string indices must be integers")
  /\ sdk (snd (HCloudProvider.provision_private_subnets Unwrapped.self
                 More.after_network))
     = sdk More.after_network.
Proof.
  apply (provision_private_subnets_dict Unwrapped.self More.after_network
           (PDict [ ("private_ip_range", PStr "10.0.0.0/8");
                    ("subnets",
                     PDict [ ("subnet_ip_range", PStr "10.1.0.0/16");
                             ("name", PStr "only") ]) ])
           "subnet_ip_range" (PStr "10.1.0.0/16") [ ("name", PStr "only") ]);
    reflexivity.
Defined.
